(** * my-agent: the three tools of [tools.ts]

    A shallow embedding of [getFileChangesInDirectory],
    [generateCommitMessage] and [writeMarkdownFile], and the properties of
    the commit-message heuristic, the exclusion filter and the report writer.

    Conventions.
    - A JavaScript string is a [string]; one character stands for one UTF-16
      code unit, so [String.length] is [.length].  Nothing below looks inside
      a character.
    - Insertion and deletion counts are the non-negative integers simple-git
      parses out of [git diff --stat]: [N].  [maxLength] is a caller-supplied
      integer: [Z] (it may be smaller than 3, zero or negative).
    - A thrown exception / rejected promise is [Throw]; [await] is sequencing.
    - simple-git, [fs] and [path] are external collaborators: they enter as
      records of operations, never as definitions of this file. *)

From Stdlib Require Import String Ascii List ZArith NArith Arith Bool Lia DecimalString.
From Stdlib Require Import Permutation.
Import ListNotations.
Open Scope string_scope.

(* ================================================================== *)
(** * JavaScript built-ins *)
(* ================================================================== *)

Module JS.

(** [Array.prototype.includes] on an array of strings (SameValueZero on
    strings is equality of the whole string). *)
Definition includes (xs : list string) (x : string) : bool :=
  existsb (fun y => String.eqb y x) xs.

(** [String.prototype.substring(start, end)] for integer arguments: both
    are clamped to [0 .. length], and swapped when [start > end]. *)
Definition substring (s : string) (start end_ : Z) : string :=
  let len := Z.of_nat (String.length s) in
  let clamp := fun x => Z.min (Z.max x 0) len in
  let from := Z.min (clamp start) (clamp end_) in
  let to := Z.max (clamp start) (clamp end_) in
  String.substring (Z.to_nat from) (Z.to_nat (to - from)) s.

(** [String.prototype.endsWith(searchString)]. *)
Definition endsWith (s searchString : string) : bool :=
  let n := String.length s in
  let m := String.length searchString in
  if (m <=? n)%nat then String.eqb (String.substring (n - m) m s) searchString
  else false.

(** [Array.prototype.join(sep)] on an array of strings. *)
Definition join (sep : string) (xs : list string) : string :=
  String.concat sep xs.

(** Template-literal rendering of a non-negative integer: decimal digits
    (file and line counts stay far below 1e21, where JavaScript would
    switch to exponent notation). *)
Definition toString (n : N) : string :=
  NilEmpty.string_of_uint (N.to_uint n).

(** The line feed of the escape [\n]. *)
Definition LF : string := String (ascii_of_nat 10) EmptyString.

End JS.

(* ================================================================== *)
(** * Exceptions *)
(* ================================================================== *)

(** The message of a thrown error. *)
Definition exn : Type := string.

Inductive result (A : Type) : Type :=
| Ok (a : A)
| Throw (e : exn).

Arguments Ok {A} a.
Arguments Throw {A} e.

Definition bind {A B : Type} (r : result A) (k : A -> result B) : result B :=
  match r with
  | Ok a => k a
  | Throw e => Throw e
  end.

Notation "x <- e ;; k" := (bind e (fun x => k))
  (at level 61, e at next level, right associativity).

(* ================================================================== *)
(** * The simple-git collaborator *)
(* ================================================================== *)

(** An entry of [DiffResult.files].  A text entry has [changes],
    [insertions] and [deletions]; a binary entry has [before] and [after]
    and none of the three (hence the ['insertions' in file] tests). *)
Inductive DiffResultFile : Type :=
| DiffResultTextFile (file : string) (changes insertions deletions : N)
| DiffResultBinaryFile (file : string) (before after : N).

(** [file.file] *)
Definition file_of (f : DiffResultFile) : string :=
  match f with
  | DiffResultTextFile file _ _ _ => file
  | DiffResultBinaryFile file _ _ => file
  end.

(** ['changes' in file ? file.changes : 0] and its two siblings. *)
Definition changes_of (f : DiffResultFile) : N :=
  match f with
  | DiffResultTextFile _ changes _ _ => changes
  | DiffResultBinaryFile _ _ _ => 0%N
  end.

Definition insertions_of (f : DiffResultFile) : N :=
  match f with
  | DiffResultTextFile _ _ insertions _ => insertions
  | DiffResultBinaryFile _ _ _ => 0%N
  end.

Definition deletions_of (f : DiffResultFile) : N :=
  match f with
  | DiffResultTextFile _ _ _ deletions => deletions
  | DiffResultBinaryFile _ _ _ => 0%N
  end.

Record DiffResult : Type := { files : list DiffResultFile }.

(** The handle returned by [simpleGit(rootDir)], as far as tools.ts uses it:
    [git.diffSummary()] and [git.diff(args)], both of which may reject. *)
Record SimpleGit : Type := {
  diffSummary : result DiffResult;
  diff : list string -> result string
}.

(* ================================================================== *)
(** * tools.ts: the exclusion set and getFileChangesInDirectory *)
(* ================================================================== *)

Definition excludeFiles : list string := ["dist"; "bun.lock"].

(** An element of [diffs]: [{ file: string; diff: string }]. *)
Record FileDiff : Type := { fd_file : string; fd_diff : string }.

(** The [for (const file of summary.files)] loop, with [diffs] as the array
    being pushed to; [continue] skips an excluded entry, a rejected
    [git.diff] leaves the loop. *)
Fixpoint collectDiffs (git : SimpleGit) (todo : list DiffResultFile)
    (diffs : list FileDiff) : result (list FileDiff) :=
  match todo with
  | [] => Ok diffs
  | file :: rest =>
      if JS.includes excludeFiles (file_of file) then collectDiffs git rest diffs
      else
        d <- diff git ["--"; file_of file] ;;
        collectDiffs git rest (diffs ++ [{| fd_file := file_of file; fd_diff := d |}])
  end.

Definition getFileChangesInDirectory (simpleGit : string -> result SimpleGit)
    (rootDir : string) : result (list FileDiff) :=
  git <- simpleGit rootDir ;;
  summary <- diffSummary git ;;
  collectDiffs git (files summary) [].

(* ================================================================== *)
(** * tools.ts: generateCommitMessage *)
(* ================================================================== *)

(** An element of [changedFiles]. *)
Record ChangedFile : Type := {
  cf_file : string;
  cf_changes : N;
  cf_insertions : N;
  cf_deletions : N
}.

(** [summary.files.filter(...).map(...)] *)
Definition changedFiles (summaryFiles : list DiffResultFile) : list ChangedFile :=
  map (fun file => {| cf_file := file_of file;
                      cf_changes := changes_of file;
                      cf_insertions := insertions_of file;
                      cf_deletions := deletions_of file |})
      (filter (fun file => negb (JS.includes excludeFiles (file_of file))) summaryFiles).

Definition isNew (f : ChangedFile) : bool :=
  (0 <? cf_insertions f)%N && (cf_deletions f =? 0)%N.
Definition isDeleted (f : ChangedFile) : bool :=
  (cf_insertions f =? 0)%N && (0 <? cf_deletions f)%N.
Definition isModified (f : ChangedFile) : bool :=
  (0 <? cf_insertions f)%N && (0 <? cf_deletions f)%N.

Definition newFiles (cfs : list ChangedFile) : list ChangedFile := filter isNew cfs.
Definition deletedFiles (cfs : list ChangedFile) : list ChangedFile := filter isDeleted cfs.
Definition modifiedFiles (cfs : list ChangedFile) : list ChangedFile := filter isModified cfs.

(** [`${xs.length}`] *)
Definition lengthString {A : Type} (xs : list A) : string :=
  JS.toString (N.of_nat (List.length xs)).

(** The value of [commitMessage] after the if / else-if chain (the three
    branches are written out as in the source). *)
Definition headline (cfs : list ChangedFile) : string :=
  let commitMessage := "" in
  if (0 <? List.length (newFiles cfs))%nat then
    let commitMessage :=
      commitMessage ++ "Add " ++ lengthString (newFiles cfs) ++ " new file"
        ++ (if (1 <? List.length (newFiles cfs))%nat then "s" else "") in
    if (List.length (newFiles cfs) <=? 3)%nat then
      commitMessage ++ ": " ++ JS.join ", " (map cf_file (newFiles cfs))
    else commitMessage
  else if (0 <? List.length (deletedFiles cfs))%nat then
    let commitMessage :=
      commitMessage ++ "Remove " ++ lengthString (deletedFiles cfs) ++ " file"
        ++ (if (1 <? List.length (deletedFiles cfs))%nat then "s" else "") in
    if (List.length (deletedFiles cfs) <=? 3)%nat then
      commitMessage ++ ": " ++ JS.join ", " (map cf_file (deletedFiles cfs))
    else commitMessage
  else if (0 <? List.length (modifiedFiles cfs))%nat then
    let commitMessage :=
      commitMessage ++ "Update " ++ lengthString (modifiedFiles cfs) ++ " file"
        ++ (if (1 <? List.length (modifiedFiles cfs))%nat then "s" else "") in
    if (List.length (modifiedFiles cfs) <=? 3)%nat then
      commitMessage ++ ": " ++ JS.join ", " (map cf_file (modifiedFiles cfs))
    else commitMessage
  else commitMessage.

(** [changedFiles.reduce((sum, f) => sum + f.insertions, 0)] and its sibling. *)
Definition totalInsertions (cfs : list ChangedFile) : N :=
  fold_left (fun sum f => (sum + cf_insertions f)%N) cfs 0%N.
Definition totalDeletions (cfs : list ChangedFile) : N :=
  fold_left (fun sum f => (sum + cf_deletions f)%N) cfs 0%N.

(** [commitMessage] once the summary of changes has been appended. *)
Definition assembled (cfs : list ChangedFile) : string :=
  let commitMessage := headline cfs in
  if (0 <? totalInsertions cfs)%N || (0 <? totalDeletions cfs)%N then
    commitMessage ++ " (+" ++ JS.toString (totalInsertions cfs)
      ++ " -" ++ JS.toString (totalDeletions cfs) ++ ")"
  else commitMessage.

(** The final [if (commitMessage.length > maxLength)]. *)
Definition truncate (commitMessage : string) (maxLength : Z) : string :=
  if (maxLength <? Z.of_nat (String.length commitMessage))%Z then
    JS.substring commitMessage 0 (maxLength - 3) ++ "..."
  else commitMessage.

(** A destructured parameter with a default: [{ x = d }]. *)
Definition withDefault {A : Type} (d : A) (x : option A) : A :=
  match x with Some v => v | None => d end.

(** [maxLength] is optional and defaults to 72. *)
Definition generateCommitMessage (simpleGit : string -> result SimpleGit)
    (rootDir : string) (maxLength : option Z) : result string :=
  let maxLength := withDefault 72%Z maxLength in
  git <- simpleGit rootDir ;;
  summary <- diffSummary git ;;
  if (List.length (files summary) =? 0)%nat then Ok "No changes detected"
  else Ok (truncate (assembled (changedFiles (files summary))) maxLength).

(* ================================================================== *)
(** * tools.ts: writeMarkdownFile *)
(* ================================================================== *)

(** What tools.ts uses of [fs], [path] and [Date].  [World] is the state of
    the file system and the clock.  An [fs] call returns the world it leaves
    behind also when it throws. *)
Record NodeHost (World : Type) : Type := {
  existsSync : string -> World -> bool;
  (** [mkdirSync(dir, { recursive: true })] *)
  mkdirSync : string -> World -> result unit * World;
  (** [writeFileSync(path, data, 'utf8')] *)
  writeFileSync : string -> string -> World -> result unit * World;
  (** [new Date().toISOString()] *)
  toISOString : World -> string;
  (** [path.join(a, b)] *)
  join : string -> string -> string
}.

Arguments existsSync {World} _ _ _.
Arguments mkdirSync {World} _ _ _.
Arguments writeFileSync {World} _ _ _ _.
Arguments toISOString {World} _ _.
Arguments join {World} _ _ _.

Record WriteResult : Type := {
  success : bool;
  filePath : string;
  message : string
}.

(** [filename.endsWith('.md') ? filename : `${filename}.md`] *)
Definition markdownFilename (filename : string) : string :=
  if JS.endsWith filename ".md" then filename else filename ++ ".md".

(** [join(directory, markdownFilename)] with the default [directory = "."]. *)
Definition resolvedPath {World : Type} (host : NodeHost World)
    (filename : string) (directory : option string) : string :=
  let directory := withDefault "." directory in
  join host directory (markdownFilename filename).

Definition header (timestamp : string) : string :=
  "# Code Review Report" ++ JS.LF ++ JS.LF
    ++ "*Generated on: " ++ timestamp ++ "*" ++ JS.LF ++ JS.LF
    ++ "---" ++ JS.LF ++ JS.LF.

Definition writeMarkdownFile {World : Type} (host : NodeHost World)
    (content filename : string) (directory : option string)
    (w : World) : result WriteResult * World :=
  let dir := withDefault "." directory in
  let '(made, w1) :=
    if negb (existsSync host dir w) then mkdirSync host dir w else (Ok tt, w) in
  match made with
  | Throw e => (Throw e, w1)
  | Ok _ =>
      let filePath := resolvedPath host filename directory in
      let timestamp := toISOString host w1 in
      let fullContent := header timestamp ++ content in
      let '(written, w2) := writeFileSync host filePath fullContent w1 in
      match written with
      | Throw e => (Throw e, w2)
      | Ok _ =>
          (Ok {| success := true;
                 filePath := filePath;
                 message := "Markdown file written successfully to " ++ filePath |},
           w2)
      end
  end.

(* ================================================================== *)
(** * The headline in the specification's vocabulary *)
(* ================================================================== *)

(** The three buckets, their precedence as an ordered list, and the bucket
    that wins: the first non-empty one.  These are not taken from the
    source; the theorems below compare [headline] with them. *)
Inductive Bucket : Type := Added | Deleted | Modified.

Definition precedence : list Bucket := [Added; Deleted; Modified].

Definition bucketOf (cfs : list ChangedFile) (b : Bucket) : list ChangedFile :=
  match b with
  | Added => newFiles cfs
  | Deleted => deletedFiles cfs
  | Modified => modifiedFiles cfs
  end.

(** The test that puts a record into a bucket. *)
Definition inBucket (b : Bucket) : ChangedFile -> bool :=
  match b with
  | Added => isNew
  | Deleted => isDeleted
  | Modified => isModified
  end.

Definition isEmpty {A : Type} (xs : list A) : bool :=
  match xs with [] => true | _ :: _ => false end.

Definition winner (cfs : list ChangedFile) : option Bucket :=
  find (fun b => negb (isEmpty (bucketOf cfs b))) precedence.

(** Verb, count and pluralised noun, as the source words them. *)
Definition phrase (b : Bucket) (n : nat) : string :=
  match b with
  | Added => "Add " ++ JS.toString (N.of_nat n) ++ " new file"
  | Deleted => "Remove " ++ JS.toString (N.of_nat n) ++ " file"
  | Modified => "Update " ++ JS.toString (N.of_nat n) ++ " file"
  end ++ (if (n =? 1)%nat then "" else "s").

(** The example listing of a bucket. *)
Definition listing (bucket : list ChangedFile) : string :=
  ": " ++ JS.join ", " (map cf_file bucket).

(** A record of the input that is a pure addition. *)
Definition pureAddition (f : DiffResultFile) : Prop :=
  (0 < insertions_of f)%N /\ deletions_of f = 0%N.

(** Changed files that are all pure additions. *)
Definition additionsOnly (cfs : list ChangedFile) : Prop :=
  Forall (fun f => (0 < cf_insertions f)%N /\ cf_deletions f = 0%N) cfs.

(** The filter of both tools, on input records. *)
Definition kept (f : DiffResultFile) : bool :=
  negb (JS.includes excludeFiles (file_of f)).

(* ================================================================== *)
(** * Worked-example fixtures *)
(* ================================================================== *)

(** A repository snapshot whose queries all succeed: [diffSummary] lists
    [fs], and the diff of a path is [diffText path]. *)
Definition snapshotGit (fs : list DiffResultFile) (diffText : string -> string)
    : SimpleGit :=
  {| diffSummary := Ok {| files := fs |};
     diff := fun args => Ok (diffText (last args "")) |}.

Definition snapshot (fs : list DiffResultFile) (diffText : string -> string)
    : string -> result SimpleGit :=
  fun _ => Ok (snapshotGit fs diffText).

(** The diff text used in the examples. *)
Definition patchOf (path : string) : string := "diff --git a/" ++ path.

(** Changed files built directly. *)
Definition added (path : string) (n : N) : ChangedFile :=
  {| cf_file := path; cf_changes := n; cf_insertions := n; cf_deletions := 0 |}.
Definition removed (path : string) (n : N) : ChangedFile :=
  {| cf_file := path; cf_changes := n; cf_insertions := 0; cf_deletions := n |}.
Definition edited (path : string) (i d : N) : ChangedFile :=
  {| cf_file := path; cf_changes := i + d; cf_insertions := i; cf_deletions := d |}.
Definition untouched (path : string) : ChangedFile :=
  {| cf_file := path; cf_changes := 0; cf_insertions := 0; cf_deletions := 0 |}.

(** Two modified files. *)
Definition twoModified : list DiffResultFile :=
  [DiffResultTextFile "src/index.ts" 52 40 12;
   DiffResultTextFile "src/tools.ts" 9 8 1].

(** An in-memory file system with a frozen clock, whose [join] glues with
    a slash (the runtime's own [join] also normalises: [Path.join]).  It
    only serves to run [writeMarkdownFile] on examples. *)
Module MemoryHost.

Record World : Type := {
  dirs : list string;
  store : list (string * string);
  clock : string
}.

Definition host : NodeHost World := {|
  existsSync := fun d w => JS.includes (dirs w) d;
  mkdirSync := fun d w =>
    (Ok tt, {| dirs := d :: dirs w; store := store w; clock := clock w |});
  writeFileSync := fun p data w =>
    (Ok tt, {| dirs := dirs w; store := (p, data) :: store w; clock := clock w |});
  toISOString := clock;
  join := fun a b => a ++ "/" ++ b
|}.

Definition empty : World :=
  {| dirs := ["."]; store := []; clock := "2025-01-01T00:00:00.000Z" |}.

End MemoryHost.

(* ================================================================== *)
(** * index.ts: the relay loop of codeReviewAgent *)
(* ================================================================== *)

(** A finished run of [result.textStream]: the chunks it yielded, and the
    error it rejected with, if any. *)
Record TextStream : Type := {
  chunks : list string;
  failure : option exn
}.

(** [for await (const chunk of result.textStream) process.stdout.write(chunk)]
    with [stdout] the text written so far. *)
Fixpoint writeChunks (todo : list string) (stdout : string) : string :=
  match todo with
  | [] => stdout
  | chunk :: rest => writeChunks rest (stdout ++ chunk)
  end.

(** What [codeReviewAgent] hands to [streamText], apart from the model. *)
Record StreamRequest : Type := {
  prompt : string;
  system : string;
  tools : list string;
  stepCountIs : nat
}.

(** [codeReviewAgent(prompt)]: one call of [streamText], then the relay
    loop.  [SYSTEM_PROMPT] is the constant of prompts.ts. *)
Definition agentRequest (SYSTEM_PROMPT : string) (prompt : string)
    : StreamRequest :=
  {| prompt := prompt;
     system := SYSTEM_PROMPT;
     tools := ["getFileChangesInDirectoryTool";
               "generateCommitMessageTool";
               "writeMarkdownFileTool"];
     stepCountIs := 10 |}.

Definition codeReviewAgent (SYSTEM_PROMPT : string)
    (streamText : StreamRequest -> TextStream)
    (prompt : string) (stdout : string) : result unit * string :=
  let result := streamText (agentRequest SYSTEM_PROMPT prompt) in
  let stdout := writeChunks (chunks result) stdout in
  match failure result with
  | Some e => (Throw e, stdout)
  | None => (Ok tt, stdout)
  end.

(* ================================================================== *)
(** * path.join as Node.js documents it (POSIX) *)
(* ================================================================== *)

(** [path] is a module of the runtime, not of this repository.  The
    theorems on [writeMarkdownFile] hold for every [join]; this model says
    which string the runtime's own [join] gives.  It follows the Node.js
    documentation: the non-empty arguments are glued with "/", and the
    result is normalised, that is, empty and "." segments are dropped, a
    ".." segment removes the segment before it, a leading and a trailing
    "/" are kept, and an empty result is ".". *)
Module Path.

(** The segments between the "/" separators. *)
Fixpoint segments (path : string) : list string :=
  match path with
  | EmptyString => [""]
  | String c rest =>
      if Ascii.eqb c "/" then "" :: segments rest
      else match segments rest with
           | seg :: more => String c seg :: more
           | [] => [String c ""]
           end
  end.

(** One segment against the segments kept so far (last one first). *)
Definition step (allowAboveRoot : bool) (res : list string) (seg : string)
    : list string :=
  if String.eqb seg "" || String.eqb seg "." then res
  else if String.eqb seg ".." then
    match res with
    | last :: before =>
        if String.eqb last ".." then (if allowAboveRoot then ".." :: res else res)
        else before
    | [] => if allowAboveRoot then [".."] else []
    end
  else seg :: res.

Definition normalize (path : string) : string :=
  if String.eqb path "" then "."
  else
    let isAbsolute := String.prefix "/" path in
    let trailingSeparator := JS.endsWith path "/" in
    let kept := rev (fold_left (step (negb isAbsolute)) (segments path) []) in
    let body := String.concat "/" kept in
    if String.eqb body "" then
      (if isAbsolute then "/" else if trailingSeparator then "./" else ".")
    else
      (if isAbsolute then "/" else "") ++ body
        ++ (if trailingSeparator then "/" else "").

(** [path.join(a, b)] *)
Definition join (a b : string) : string :=
  let joined :=
    String.concat "/" (filter (fun arg => negb (String.eqb arg "")) [a; b]) in
  if String.eqb joined "" then "." else normalize joined.

End Path.

(* ================================================================== *)
(** * Further vocabulary and fixtures *)
(* ================================================================== *)

(** A record that no bucket takes: no insertion and no deletion. *)
Definition isUntouched (f : ChangedFile) : bool :=
  (cf_insertions f =? 0)%N && (cf_deletions f =? 0)%N.

(** The summary of changes appended to the headline. *)
Definition stats (cfs : list ChangedFile) : string :=
  " (+" ++ JS.toString (totalInsertions cfs)
    ++ " -" ++ JS.toString (totalDeletions cfs) ++ ")".

(** A kept entry whose diff query answers. *)
Definition diffAnswers (git : SimpleGit) (f : DiffResultFile) : Prop :=
  kept f = true -> exists d, diff git ["--"; file_of f] = Ok d.

(** A repository whose diff query rejects for the path [bad] and answers
    [patchOf] for every other path. *)
Definition brokenDiffGit (fs : list DiffResultFile) (bad : string) : SimpleGit :=
  {| diffSummary := Ok {| files := fs |};
     diff := fun args =>
       if String.eqb (last args "") bad then Throw "fatal: bad object"
       else Ok (patchOf (last args "")) |}.

(** The in-memory host on a read-only disk: every write is refused. *)
Definition readOnlyHost : NodeHost MemoryHost.World :=
  {| existsSync := existsSync MemoryHost.host;
     mkdirSync := mkdirSync MemoryHost.host;
     writeFileSync := fun _ _ w => (Throw "EROFS: read-only file system", w);
     toISOString := toISOString MemoryHost.host;
     join := join MemoryHost.host |}.

(** The host [h] with another [join]. *)
Definition withJoin {World : Type} (h : NodeHost World)
    (j : string -> string -> string) : NodeHost World :=
  {| existsSync := existsSync h;
     mkdirSync := mkdirSync h;
     writeFileSync := writeFileSync h;
     toISOString := toISOString h;
     join := j |}.

(** The in-memory host with the runtime's [join]. *)
Definition posixHost : NodeHost MemoryHost.World :=
  withJoin MemoryHost.host Path.join.

(** The host [h] with another [mkdirSync]. *)
Definition withMkdirSync {World : Type} (h : NodeHost World)
    (mk : string -> World -> result unit * World) : NodeHost World :=
  {| existsSync := existsSync h;
     mkdirSync := mk;
     writeFileSync := writeFileSync h;
     toISOString := toISOString h;
     join := join h |}.

(* ================================================================== *)
(** * Strings: lengths, prefixes and suffixes *)
(* ================================================================== *)

Lemma length_append (a b : string) :
  String.length (a ++ b) = String.length a + String.length b.
Proof.
  induction a as [|c a IH]; simpl; [reflexivity | now rewrite IH].
Qed.

Lemma append_assoc (a b c : string) : (a ++ b) ++ c = a ++ (b ++ c).
Proof.
  induction a as [|x a IH]; simpl; [reflexivity | now rewrite IH].
Qed.

Lemma append_empty_r (a : string) : a ++ "" = a.
Proof.
  induction a as [|x a IH]; simpl; [reflexivity | now rewrite IH].
Qed.

Lemma substring_0_length (n : nat) (s : string) :
  String.length (String.substring 0 n s) = Nat.min n (String.length s).
Proof.
  revert n; induction s as [|c s IH]; intros [|n]; simpl; try reflexivity.
  now rewrite IH.
Qed.

(** The first [n] characters are a prefix. *)
Lemma substring_0_split (s : string) (n : nat) :
  n <= String.length s ->
  exists rest,
    s = String.substring 0 n s ++ rest /\
    String.length (String.substring 0 n s) = n.
Proof.
  revert n; induction s as [|c s IH]; intros [|n] Hn; cbn in *.
  - now exists "".
  - lia.
  - now exists (String c s).
  - destruct (IH n) as (rest & E & L); [lia|].
    exists rest. split; [now rewrite <- E | now rewrite L].
Qed.

Lemma substring_0_all (s : string) : String.substring 0 (String.length s) s = s.
Proof.
  induction s as [|c s IH]; simpl; [reflexivity | now rewrite IH].
Qed.

Lemma substring_skip_append (a b : string) :
  String.substring (String.length a) (String.length b) (a ++ b) = b.
Proof.
  induction a as [|c a IH]; simpl; [apply substring_0_all | exact IH].
Qed.

Lemma endsWith_append (a b : string) : JS.endsWith (a ++ b) b = true.
Proof.
  unfold JS.endsWith. rewrite length_append.
  replace (String.length b <=? String.length a + String.length b)%nat with true
    by (symmetry; apply Nat.leb_le; lia).
  replace (String.length a + String.length b - String.length b)
    with (String.length a) by lia.
  rewrite substring_skip_append. apply String.eqb_refl.
Qed.

(** [s.substring(0, e)] keeps the first [e] characters, none when [e <= 0]
    and all of them when [e] is past the end. *)
Lemma JS_substring_from_0 (s : string) (e : Z) :
  JS.substring s 0 e =
  String.substring 0 (Z.to_nat (Z.min (Z.max e 0) (Z.of_nat (String.length s)))) s.
Proof.
  unfold JS.substring.
  assert (H0 : (0 <= Z.of_nat (String.length s))%Z) by lia.
  replace (Z.min (Z.max 0 0) (Z.of_nat (String.length s))) with 0%Z by lia.
  set (c := Z.min (Z.max e 0) (Z.of_nat (String.length s))).
  assert (Hc : (0 <= c)%Z) by (subst c; lia).
  replace (Z.min 0 c) with 0%Z by lia.
  replace (Z.max 0 c - 0)%Z with c by lia.
  reflexivity.
Qed.

Lemma JS_substring_from_0_length (s : string) (e : Z) :
  Z.of_nat (String.length (JS.substring s 0 e)) =
  Z.min (Z.max e 0) (Z.of_nat (String.length s)).
Proof.
  rewrite JS_substring_from_0, substring_0_length. lia.
Qed.

(** Membership in [excludeFiles] is equality with one of its two members. *)
Lemma includes_excludeFiles (x : string) :
  JS.includes excludeFiles x = true <-> x = "dist" \/ x = "bun.lock".
Proof.
  unfold JS.includes, excludeFiles; cbn [existsb].
  rewrite !orb_true_iff, !String.eqb_eq.
  split; [intros [H|[H|H]]; [left | right | discriminate]; now symmetry
         | intros [H|H]; [left | right; left]; now symmetry].
Qed.

(* ================================================================== *)
(** * The length bound *)
(* ================================================================== *)

Lemma truncate_short (msg : string) (maxLength : Z) :
  (Z.of_nat (String.length msg) <= maxLength)%Z -> truncate msg maxLength = msg.
Proof.
  intros H. unfold truncate.
  destruct (Z.ltb_spec maxLength (Z.of_nat (String.length msg))); [lia | reflexivity].
Qed.

Lemma truncate_long (msg : string) (maxLength : Z) :
  (maxLength < Z.of_nat (String.length msg))%Z ->
  truncate msg maxLength = JS.substring msg 0 (maxLength - 3) ++ "...".
Proof.
  intros H. unfold truncate.
  destruct (Z.ltb_spec maxLength (Z.of_nat (String.length msg))); [reflexivity | lia].
Qed.

(** When the message is cut, the result is [max (maxLength - 3) 0] kept
    characters and the three dots. *)
Lemma truncate_long_length (msg : string) (maxLength : Z) :
  (maxLength < Z.of_nat (String.length msg))%Z ->
  Z.of_nat (String.length (truncate msg maxLength)) = (Z.max (maxLength - 3) 0 + 3)%Z.
Proof.
  intros H. rewrite (truncate_long _ _ H), length_append, Nat2Z.inj_add.
  rewrite JS_substring_from_0_length. simpl String.length. lia.
Qed.

Lemma truncate_length_le (msg : string) (maxLength : Z) :
  (3 <= maxLength)%Z ->
  (Z.of_nat (String.length (truncate msg maxLength)) <= maxLength)%Z.
Proof.
  intros H3.
  destruct (Z.ltb_spec maxLength (Z.of_nat (String.length msg))) as [Hlt|Hge].
  - rewrite (truncate_long_length _ _ Hlt). lia.
  - now rewrite (truncate_short _ _ Hge).
Qed.

Lemma truncate_long_endsWith (msg : string) (maxLength : Z) :
  (maxLength < Z.of_nat (String.length msg))%Z ->
  JS.endsWith (truncate msg maxLength) "..." = true.
Proof.
  intros H. rewrite (truncate_long _ _ H). apply endsWith_append.
Qed.

(* ================================================================== *)
(** * generateCommitMessage: what it returns *)
(* ================================================================== *)

Section CommitMessage.

Variable simpleGit : string -> result SimpleGit.
Variable rootDir : string.
Variable git : SimpleGit.
Variable summaryFiles : list DiffResultFile.
Hypothesis opened : simpleGit rootDir = Ok git.
Hypothesis summarised : diffSummary git = Ok {| files := summaryFiles |}.

(** With both git queries answered, the function returns, and returns
    the sentinel or the truncated assembled message. *)
Lemma generateCommitMessage_returns (maxLength : option Z) :
  generateCommitMessage simpleGit rootDir maxLength =
  Ok (if isEmpty summaryFiles then "No changes detected"
      else truncate (assembled (changedFiles summaryFiles))
                    (withDefault 72%Z maxLength)).
Proof.
  unfold generateCommitMessage. rewrite opened; cbn [bind].
  rewrite summarised; cbn [bind files].
  destruct summaryFiles; reflexivity.
Qed.

(** An empty summary gives the sentinel whatever [maxLength] is. *)
Lemma generateCommitMessage_no_files (maxLength : option Z) :
  summaryFiles = [] ->
  generateCommitMessage simpleGit rootDir maxLength = Ok "No changes detected".
Proof.
  intros E. rewrite generateCommitMessage_returns, E. reflexivity.
Qed.

(** From [maxLength = 3] on, a non-empty summary yields a message within
    the bound, and a message that was cut ends with the three dots. *)
Lemma generateCommitMessage_bounded (maxLength : Z) :
  summaryFiles <> [] -> (3 <= maxLength)%Z ->
  exists out,
    generateCommitMessage simpleGit rootDir (Some maxLength) = Ok out /\
    (Z.of_nat (String.length out) <= maxLength)%Z /\
    ((maxLength < Z.of_nat (String.length (assembled (changedFiles summaryFiles))))%Z ->
     JS.endsWith out "..." = true).
Proof.
  intros Hne H3. rewrite generateCommitMessage_returns.
  destruct summaryFiles as [|f fs] eqn:E; [congruence|]. cbn [isEmpty withDefault].
  eexists; split; [reflexivity|]. split.
  - now apply truncate_length_le.
  - apply truncate_long_endsWith.
Qed.

End CommitMessage.

(** C9.  Whenever the assembled commit message is longer than [maxLength]
    (72 when the argument is left out) and [maxLength >= 3],
    [generateCommitMessage] returns a string of exactly [maxLength]
    characters: [maxLength - 3] kept characters, the first ones of the
    assembled message, and the suffix "...". *)
Theorem generateCommitMessage_truncated_length
    (simpleGit : string -> result SimpleGit) (rootDir : string)
    (git : SimpleGit) (summaryFiles : list DiffResultFile) (maxLength : option Z) :
  simpleGit rootDir = Ok git ->
  diffSummary git = Ok {| files := summaryFiles |} ->
  (3 <= withDefault 72 maxLength)%Z ->
  (withDefault 72 maxLength
   < Z.of_nat (String.length (assembled (changedFiles summaryFiles))))%Z ->
  exists kept rest,
    assembled (changedFiles summaryFiles) = kept ++ rest /\
    generateCommitMessage simpleGit rootDir maxLength = Ok (kept ++ "...") /\
    Z.of_nat (String.length kept) = (withDefault 72 maxLength - 3)%Z /\
    Z.of_nat (String.length (kept ++ "...")) = withDefault 72%Z maxLength.
Proof.
  intros Hgit Hsum H3 Hlong.
  rewrite (generateCommitMessage_returns _ _ _ _ Hgit Hsum).
  destruct summaryFiles as [|f fs] eqn:E; [cbn in Hlong; lia|]. cbn [isEmpty].
  rewrite (truncate_long _ _ Hlong), JS_substring_from_0.
  set (msg := assembled (changedFiles (f :: fs))) in *.
  set (n := Z.to_nat _).
  assert (Hn : n <= String.length msg) by (subst n; lia).
  destruct (substring_0_split msg n Hn) as (rest & Hsplit & Hlen).
  exists (String.substring 0 n msg), rest.
  split; [exact Hsplit|]. split; [reflexivity|].
  rewrite length_append, Nat2Z.inj_add, Hlen. simpl String.length.
  subst n. lia.
Qed.

Lemma generateCommitMessage_truncated_length_witness :
  exists kept rest,
    assembled (changedFiles twoModified) = kept ++ rest /\
    generateCommitMessage (snapshot twoModified patchOf) "." (Some 20%Z)
      = Ok (kept ++ "...") /\
    Z.of_nat (String.length kept) = (20 - 3)%Z /\
    Z.of_nat (String.length (kept ++ "...")) = 20%Z.
Proof.
  apply (generateCommitMessage_truncated_length
           (snapshot twoModified patchOf) "."
           (snapshotGit twoModified patchOf) twoModified (Some 20%Z)).
  - reflexivity.
  - reflexivity.
  - cbn. lia.
  - vm_compute. reflexivity.
Defined.

(** C1.  The bound [length(output) <= maxLength] is not kept for the
    positive bounds 1 and 2: one added file and [maxLength = 1] give the
    three-character string "...", because [substring(0, maxLength - 3)]
    keeps nothing and the suffix is appended regardless.  (From
    [maxLength = 3] on the bound holds: [generateCommitMessage_bounded].) *)
Theorem generateCommitMessage_maxLength_1 :
  generateCommitMessage
    (snapshot [DiffResultTextFile "a.ts" 10 10 0] patchOf) "." (Some 1%Z)
    = Ok "..." /\
  assembled (changedFiles [DiffResultTextFile "a.ts" 10 10 0])
    = "Add 1 new file: a.ts (+10 -0)" /\
  (1 < Z.of_nat (String.length "..."))%Z.
Proof.
  repeat split.
Qed.

(** The same for every message longer than a bound below 3: the result has
    three characters. *)
Lemma truncate_below_3 (msg : string) (maxLength : Z) :
  (maxLength < 3)%Z -> (maxLength < Z.of_nat (String.length msg))%Z ->
  truncate msg maxLength = "...".
Proof.
  intros H3 Hlong. rewrite (truncate_long _ _ Hlong), JS_substring_from_0.
  replace (Z.to_nat _) with 0 by lia.
  destruct msg; reflexivity.
Qed.

(** C2.  When the summary lists only excluded files the filtered sequence
    is empty, yet the sentinel is not returned: the emptiness test of the
    source looks at the unfiltered [summary.files], so the function goes on
    and returns the empty string. *)
Theorem generateCommitMessage_only_excluded :
  changedFiles [DiffResultTextFile "bun.lock" 7 5 2] = [] /\
  generateCommitMessage
    (snapshot [DiffResultTextFile "bun.lock" 7 5 2] patchOf) "." (Some 72%Z)
    = Ok "" /\
  generateCommitMessage (snapshot [] patchOf) "." (Some 72%Z)
    = Ok "No changes detected".
Proof.
  repeat split.
Qed.

(** In general: a summary that is not empty but filters to nothing gives
    the empty string, for every [maxLength >= 0]. *)
Lemma generateCommitMessage_all_excluded
    (simpleGit : string -> result SimpleGit) (rootDir : string)
    (git : SimpleGit) (summaryFiles : list DiffResultFile) (maxLength : Z) :
  simpleGit rootDir = Ok git ->
  diffSummary git = Ok {| files := summaryFiles |} ->
  summaryFiles <> [] -> changedFiles summaryFiles = [] ->
  (0 <= maxLength)%Z ->
  generateCommitMessage simpleGit rootDir (Some maxLength) = Ok "".
Proof.
  intros Hgit Hsum Hne Hcf Hm.
  rewrite (generateCommitMessage_returns _ _ _ _ Hgit Hsum).
  destruct summaryFiles; [congruence|]. cbn [isEmpty withDefault].
  rewrite Hcf. cbn. rewrite truncate_short; [reflexivity | simpl; lia].
Qed.

(* ================================================================== *)
(** * The headline: precedence, pluralisation and listing *)
(* ================================================================== *)

(** The plural test of the source, [n > 1], against the specification's
    [n == 1], on a bucket that has a member. *)
Lemma plural_suffix (n : nat) :
  n <> 0 ->
  (if (1 <? n)%nat then "s" else "") = (if (n =? 1)%nat then "" else "s").
Proof.
  destruct n as [|[|n]]; [congruence | reflexivity | reflexivity].
Qed.

Ltac flatten_append := repeat rewrite append_assoc; cbn [append].

(** One branch of the if / else-if chain, in the words of [phrase] and
    [listing]. *)
Lemma headline_branch (verb noun p : string) (bucket : list ChangedFile) :
  bucket <> [] ->
  p = verb ++ lengthString bucket ++ noun
        ++ (if (List.length bucket =? 1)%nat then "" else "s") ->
  (if (List.length bucket <=? 3)%nat
   then ("" ++ verb ++ lengthString bucket ++ noun
           ++ (if (1 <? List.length bucket)%nat then "s" else ""))
          ++ ": " ++ JS.join ", " (map cf_file bucket)
   else "" ++ verb ++ lengthString bucket ++ noun
           ++ (if (1 <? List.length bucket)%nat then "s" else ""))
  = p ++ (if (List.length bucket <=? 3)%nat then listing bucket else "").
Proof.
  intros Hne ->. rewrite plural_suffix.
  - destruct (List.length bucket <=? 3)%nat; unfold listing; flatten_append.
    + reflexivity.
    + now rewrite append_empty_r.
  - destruct bucket; [congruence | discriminate].
Qed.

Lemma phrase_unfold (b : Bucket) (bucket : list ChangedFile) :
  phrase b (List.length bucket) =
  match b with
  | Added => "Add " ++ lengthString bucket ++ " new file"
               ++ (if (List.length bucket =? 1)%nat then "" else "s")
  | Deleted => "Remove " ++ lengthString bucket ++ " file"
               ++ (if (List.length bucket =? 1)%nat then "" else "s")
  | Modified => "Update " ++ lengthString bucket ++ " file"
               ++ (if (List.length bucket =? 1)%nat then "" else "s")
  end.
Proof.
  unfold phrase, lengthString. destruct b; now rewrite !append_assoc.
Qed.

Lemma nonempty_length_pos {A : Type} (xs : list A) :
  xs <> [] -> (0 <? List.length xs)%nat = true.
Proof.
  destruct xs; [congruence | reflexivity].
Qed.

Lemma empty_length_pos {A : Type} (xs : list A) :
  xs = [] -> (0 <? List.length xs)%nat = false.
Proof.
  intros ->. reflexivity.
Qed.

Section Headline.

Variable cfs : list ChangedFile.

Lemma headline_added :
  newFiles cfs <> [] ->
  headline cfs =
    phrase Added (List.length (newFiles cfs))
      ++ (if (List.length (newFiles cfs) <=? 3)%nat
          then listing (newFiles cfs) else "").
Proof.
  intros H1. unfold headline; cbv zeta.
  rewrite (nonempty_length_pos _ H1).
  apply headline_branch; [exact H1 | apply (phrase_unfold Added)].
Qed.

Lemma headline_deleted :
  newFiles cfs = [] -> deletedFiles cfs <> [] ->
  headline cfs =
    phrase Deleted (List.length (deletedFiles cfs))
      ++ (if (List.length (deletedFiles cfs) <=? 3)%nat
          then listing (deletedFiles cfs) else "").
Proof.
  intros H1 H2. unfold headline; cbv zeta.
  rewrite (empty_length_pos _ H1), (nonempty_length_pos _ H2).
  apply headline_branch; [exact H2 | apply (phrase_unfold Deleted)].
Qed.

Lemma headline_modified :
  newFiles cfs = [] -> deletedFiles cfs = [] -> modifiedFiles cfs <> [] ->
  headline cfs =
    phrase Modified (List.length (modifiedFiles cfs))
      ++ (if (List.length (modifiedFiles cfs) <=? 3)%nat
          then listing (modifiedFiles cfs) else "").
Proof.
  intros H1 H2 H3. unfold headline; cbv zeta.
  rewrite (empty_length_pos _ H1), (empty_length_pos _ H2),
    (nonempty_length_pos _ H3).
  apply headline_branch; [exact H3 | apply (phrase_unfold Modified)].
Qed.

Lemma headline_none :
  newFiles cfs = [] -> deletedFiles cfs = [] -> modifiedFiles cfs = [] ->
  headline cfs = "".
Proof.
  intros H1 H2 H3. unfold headline; cbv zeta.
  now rewrite (empty_length_pos _ H1), (empty_length_pos _ H2),
    (empty_length_pos _ H3).
Qed.

(** The winner is the first non-empty bucket of [precedence]. *)
Lemma winner_cases :
  match winner cfs with
  | Some Added => newFiles cfs <> []
  | Some Deleted => newFiles cfs = [] /\ deletedFiles cfs <> []
  | Some Modified =>
      newFiles cfs = [] /\ deletedFiles cfs = [] /\ modifiedFiles cfs <> []
  | None =>
      newFiles cfs = [] /\ deletedFiles cfs = [] /\ modifiedFiles cfs = []
  end.
Proof.
  unfold winner, precedence; cbn [find bucketOf].
  destruct (newFiles cfs); cbn [isEmpty negb]; [|discriminate].
  destruct (deletedFiles cfs); cbn [isEmpty negb];
    [|split; [reflexivity | discriminate]].
  destruct (modifiedFiles cfs); cbn [isEmpty negb];
    repeat split; discriminate.
Qed.

End Headline.

(** C5 as the specification words it fails on a change that belongs to no
    bucket: a binary file alone is a non-empty filtered sequence without a
    pure addition or a pure deletion, and its headline is empty rather than
    an "Update" phrase. *)
Lemma headline_without_bucket :
  let cfs := changedFiles [DiffResultBinaryFile "logo.png" 0 120] in
  cfs <> [] /\ newFiles cfs = [] /\ deletedFiles cfs = [] /\
  headline cfs = "" /\
  (forall rest n, headline cfs <> phrase Modified n ++ rest) /\
  generateCommitMessage
    (snapshot [DiffResultBinaryFile "logo.png" 0 120] patchOf) "." None = Ok "".
Proof.
  cbv zeta. repeat split; try discriminate.
Qed.

(** C5 (amended).  The headline verb and count come from the first
    non-empty bucket in the order Added, Deleted, Modified: "Add" with the
    Added count as soon as some record is a pure addition; otherwise
    "Remove" with the Deleted count if some record is a pure deletion;
    otherwise "Update" with the Modified count if some record has both
    insertions and deletions; and when no record falls into a bucket there
    is no headline at all. *)
Theorem headline_precedence (cfs : list ChangedFile) :
  (newFiles cfs <> [] ->
   exists rest, headline cfs = phrase Added (List.length (newFiles cfs)) ++ rest) /\
  (newFiles cfs = [] -> deletedFiles cfs <> [] ->
   exists rest, headline cfs = phrase Deleted (List.length (deletedFiles cfs)) ++ rest) /\
  (newFiles cfs = [] -> deletedFiles cfs = [] -> modifiedFiles cfs <> [] ->
   exists rest, headline cfs = phrase Modified (List.length (modifiedFiles cfs)) ++ rest) /\
  (newFiles cfs = [] -> deletedFiles cfs = [] -> modifiedFiles cfs = [] ->
   headline cfs = "").
Proof.
  repeat split.
  - intros H1. eexists. now apply headline_added.
  - intros H1 H2. eexists. now apply headline_deleted.
  - intros H1 H2 H3. eexists. now apply headline_modified.
  - apply headline_none.
Qed.

Lemma headline_precedence_witness :
  (exists rest,
     headline [removed "old.ts" 4; edited "main.ts" 2 1; added "x.ts" 5]
     = "Add 1 new file" ++ rest) /\
  (exists rest,
     headline [edited "main.ts" 2 1; removed "old.ts" 4; removed "older.ts" 9]
     = "Remove 2 files" ++ rest) /\
  (exists rest,
     headline [untouched "logo.png"; edited "main.ts" 2 1]
     = "Update 1 file" ++ rest) /\
  headline [untouched "logo.png"] = "".
Proof.
  split; [|split; [|split]].
  - apply (headline_precedence
             [removed "old.ts" 4; edited "main.ts" 2 1; added "x.ts" 5]).
    discriminate.
  - apply (headline_precedence
             [edited "main.ts" 2 1; removed "old.ts" 4; removed "older.ts" 9]).
    + reflexivity.
    + discriminate.
  - apply (headline_precedence [untouched "logo.png"; edited "main.ts" 2 1]).
    + reflexivity.
    + reflexivity.
    + discriminate.
  - apply (headline_precedence [untouched "logo.png"]); reflexivity.
Defined.



(* ================================================================== *)
(** * Totals, and a change made of additions only *)
(* ================================================================== *)

Lemma fold_left_sum (g : ChangedFile -> N) (cfs : list ChangedFile) (a : N) :
  fold_left (fun sum f => (sum + g f)%N) cfs a
  = (a + fold_left (fun sum f => (sum + g f)%N) cfs 0)%N.
Proof.
  revert a; induction cfs as [|f cfs IH]; intros a; cbn [fold_left].
  - lia.
  - rewrite IH, (IH (0 + g f)%N). lia.
Qed.

Lemma totalInsertions_cons (f : ChangedFile) (cfs : list ChangedFile) :
  totalInsertions (f :: cfs) = (cf_insertions f + totalInsertions cfs)%N.
Proof.
  unfold totalInsertions; cbn [fold_left]. now rewrite fold_left_sum.
Qed.

Lemma totalDeletions_cons (f : ChangedFile) (cfs : list ChangedFile) :
  totalDeletions (f :: cfs) = (cf_deletions f + totalDeletions cfs)%N.
Proof.
  unfold totalDeletions; cbn [fold_left]. now rewrite fold_left_sum.
Qed.

Lemma changedFiles_pureAddition (summaryFiles : list DiffResultFile) :
  Forall pureAddition summaryFiles ->
  additionsOnly (changedFiles summaryFiles).
Proof.
  unfold changedFiles. induction 1 as [|f fs Hf _ IH]; cbn [filter map].
  - constructor.
  - destruct (negb _); cbn [map]; [constructor; [exact Hf | exact IH] | exact IH].
Qed.

Lemma additions_newFiles (cfs : list ChangedFile) :
  additionsOnly cfs -> newFiles cfs = cfs.
Proof.
  unfold newFiles. induction 1 as [|f l [Hi Hd] _ IH]; cbn [filter].
  - reflexivity.
  - unfold isNew at 1. rewrite Hd. apply N.ltb_lt in Hi. rewrite Hi.
    cbn. now rewrite IH.
Qed.

Lemma additions_totalDeletions (cfs : list ChangedFile) :
  additionsOnly cfs -> totalDeletions cfs = 0%N.
Proof.
  induction 1 as [|f l [Hi Hd] _ IH]; [reflexivity|].
  rewrite totalDeletions_cons, IH, Hd. reflexivity.
Qed.

Lemma additions_totalInsertions (cfs : list ChangedFile) :
  additionsOnly cfs -> cfs <> [] -> (0 < totalInsertions cfs)%N.
Proof.
  intros [|f l [Hi Hd] _]; [congruence|]. intros _.
  rewrite totalInsertions_cons. lia.
Qed.

Lemma additions_assembled (cfs : list ChangedFile) :
  additionsOnly cfs -> cfs <> [] ->
  assembled cfs =
    (phrase Added (List.length cfs)
       ++ (if (List.length cfs <=? 3)%nat then listing cfs else ""))
      ++ " (+" ++ JS.toString (totalInsertions cfs) ++ " -0)".
Proof.
  intros Hadd Hne. unfold assembled; cbv zeta.
  pose proof (additions_totalInsertions _ Hadd Hne) as Hpos.
  apply N.ltb_lt in Hpos. rewrite Hpos, (additions_totalDeletions _ Hadd).
  cbn [orb].
  rewrite headline_added; rewrite (additions_newFiles _ Hadd);
    [reflexivity | exact Hne].
Qed.

(** C3 as the specification words it fails twice.  The example message reads
    "Add 2 new files: ..." (the source writes "new file"), not
    "Add 2 files: ..."; and a change whose only record is an excluded path
    has an empty Added bucket and an empty message. *)
Lemma add_example_says_new_files :
  generateCommitMessage
    (snapshot [DiffResultTextFile "a.ts" 10 10 0; DiffResultTextFile "b.ts" 3 3 0]
              patchOf) "." (Some 72%Z)
    <> Ok "Add 2 files: a.ts, b.ts (+13 -0)" /\
  generateCommitMessage
    (snapshot [DiffResultTextFile "a.ts" 10 10 0; DiffResultTextFile "b.ts" 3 3 0]
              patchOf) "." (Some 72%Z)
    = Ok "Add 2 new files: a.ts, b.ts (+13 -0)" /\
  String.prefix "Add 2 files" "Add 2 new files: a.ts, b.ts (+13 -0)" = false /\
  Forall pureAddition [DiffResultTextFile "dist" 3 3 0] /\
  generateCommitMessage
    (snapshot [DiffResultTextFile "dist" 3 3 0] patchOf) "." (Some 72%Z) = Ok "".
Proof.
  split; [discriminate|]. repeat split.
  constructor; [|constructor]. split; [reflexivity | reflexivity].
Qed.

(** C3 (amended).  For every record sequence with at least one record that
    is not excluded, in which every record has insertions > 0 and
    deletions = 0, all kept records form the Added bucket, of size N, and the
    message assembled before the length cut is "Add N new file" (N = 1) or
    "Add N new files" (N <> 1), then the listing when N <= 3, then
    " (+I -0)"; the function returns that message cut to [maxLength].  In
    particular [{a.ts,+10,-0},{b.ts,+3,-0}] with [maxLength = 72] yields
    exactly "Add 2 new files: a.ts, b.ts (+13 -0)". *)
Theorem all_additions_message :
  (forall (simpleGit : string -> result SimpleGit) (rootDir : string)
          (git : SimpleGit) (summaryFiles : list DiffResultFile)
          (maxLength : option Z),
     simpleGit rootDir = Ok git ->
     diffSummary git = Ok {| files := summaryFiles |} ->
     Forall pureAddition summaryFiles ->
     changedFiles summaryFiles <> [] ->
     let cfs := changedFiles summaryFiles in
     let N := List.length cfs in
     newFiles cfs = cfs /\
     headline cfs =
       "Add " ++ JS.toString (N.of_nat N) ++ " new file"
         ++ (if (N =? 1)%nat then "" else "s")
         ++ (if (N <=? 3)%nat then ": " ++ JS.join ", " (map cf_file cfs) else "") /\
     assembled cfs =
       headline cfs ++ " (+" ++ JS.toString (totalInsertions cfs) ++ " -0)" /\
     generateCommitMessage simpleGit rootDir maxLength =
       Ok (truncate (assembled cfs) (withDefault 72%Z maxLength))) /\
  generateCommitMessage
    (snapshot [DiffResultTextFile "a.ts" 10 10 0; DiffResultTextFile "b.ts" 3 3 0]
              patchOf) "." (Some 72%Z)
    = Ok "Add 2 new files: a.ts, b.ts (+13 -0)".
Proof.
  split; [|reflexivity].
  intros simpleGit rootDir git summaryFiles maxLength Hgit Hsum Hadd Hne cfs N.
  pose proof (changedFiles_pureAddition _ Hadd) as Hcfs. fold cfs in Hcfs.
  assert (Hhead : headline cfs =
                  phrase Added N ++ (if (N <=? 3)%nat then listing cfs else "")).
  { rewrite headline_added; rewrite (additions_newFiles _ Hcfs);
      [reflexivity | exact Hne]. }
  split; [exact (additions_newFiles _ Hcfs)|]. split; [|split].
  - rewrite Hhead. unfold phrase, listing. now rewrite !append_assoc.
  - rewrite Hhead. now apply additions_assembled.
  - rewrite (generateCommitMessage_returns _ _ _ _ Hgit Hsum).
    destruct summaryFiles; [now elim Hne | reflexivity].
Qed.

Lemma all_additions_message_witness :
  headline (changedFiles [DiffResultTextFile "dist" 1 1 0;
                          DiffResultTextFile "only.ts" 8 8 0])
    = "Add 1 new file: only.ts" /\
  generateCommitMessage
    (snapshot [DiffResultTextFile "dist" 1 1 0; DiffResultTextFile "only.ts" 8 8 0]
              patchOf) "." None
    = Ok "Add 1 new file: only.ts (+8 -0)".
Proof.
  destruct (proj1 all_additions_message
              (snapshot [DiffResultTextFile "dist" 1 1 0;
                         DiffResultTextFile "only.ts" 8 8 0] patchOf)
              "."
              (snapshotGit [DiffResultTextFile "dist" 1 1 0;
                            DiffResultTextFile "only.ts" 8 8 0] patchOf)
              [DiffResultTextFile "dist" 1 1 0; DiffResultTextFile "only.ts" 8 8 0]
              None eq_refl eq_refl)
    as (_ & Hhead & _ & Hout).
  - repeat constructor.
  - discriminate.
  - split; [exact Hhead | exact Hout].
Defined.

(* ================================================================== *)
(** * getFileChangesInDirectory and the exclusion set *)
(* ================================================================== *)

(** The element pushed for a kept entry whose diff text is [diffText path]. *)
Lemma collectDiffs_ok (git : SimpleGit) (diffText : string -> string)
    (todo : list DiffResultFile) (diffs : list FileDiff) :
  (forall f, In f todo -> kept f = true ->
             diff git ["--"; file_of f] = Ok (diffText (file_of f))) ->
  collectDiffs git todo diffs =
  Ok (diffs ++ map (fun f => {| fd_file := file_of f;
                                fd_diff := diffText (file_of f) |})
                   (filter kept todo))%list.
Proof.
  revert diffs; induction todo as [|f todo IH]; intros diffs Hdiff;
    cbn [collectDiffs filter map].
  - now rewrite app_nil_r.
  - unfold kept at 1.
    destruct (JS.includes excludeFiles (file_of f)) eqn:Ex; cbn [negb].
    + apply IH. intros g Hg. apply Hdiff. now right.
    + rewrite (Hdiff f (or_introl eq_refl)) by (unfold kept; now rewrite Ex).
      cbn [bind]. rewrite IH by (intros g Hg; apply Hdiff; now right).
      cbn [map]. now rewrite <- app_assoc.
Qed.

(** A diff query that rejects ends the loop with that error: no entry is
    skipped silently. *)
Lemma collectDiffs_throw (git : SimpleGit) (diffText : string -> string)
    (before after : list DiffResultFile) (f : DiffResultFile) (e : exn)
    (diffs : list FileDiff) :
  (forall g, In g before -> kept g = true ->
             diff git ["--"; file_of g] = Ok (diffText (file_of g))) ->
  kept f = true -> diff git ["--"; file_of f] = Throw e ->
  collectDiffs git (before ++ f :: after) diffs = Throw e.
Proof.
  revert diffs; induction before as [|g before IH]; intros diffs Hdiff Hk He;
    cbn [app collectDiffs].
  - unfold kept in Hk. apply negb_true_iff in Hk. now rewrite Hk, He.
  - destruct (JS.includes excludeFiles (file_of g)) eqn:Ex.
    + apply IH; [|exact Hk|exact He]. intros h Hh. apply Hdiff. now right.
    + rewrite (Hdiff g (or_introl eq_refl)) by (unfold kept; now rewrite Ex).
      cbn [bind]. apply IH; [|exact Hk|exact He].
      intros h Hh. apply Hdiff. now right.
Qed.

(** Whatever the diff texts are, the paths of a returned array are the
    kept paths of the listing, in its order. *)
Lemma collectDiffs_paths (git : SimpleGit) (todo : list DiffResultFile)
    (diffs out : list FileDiff) :
  collectDiffs git todo diffs = Ok out ->
  map fd_file out = (map fd_file diffs ++ map file_of (filter kept todo))%list.
Proof.
  revert diffs; induction todo as [|f todo IH]; intros diffs;
    cbn [collectDiffs filter].
  - intros [= <-]. now rewrite app_nil_r.
  - unfold kept at 1.
    destruct (JS.includes excludeFiles (file_of f)); cbn [negb].
    + apply IH.
    + destruct (diff git ["--"; file_of f]) as [d|e]; cbn [bind]; [|discriminate].
      intros H. rewrite (IH _ H), map_app, <- app_assoc. reflexivity.
Qed.

Lemma getFileChangesInDirectory_paths (simpleGit : string -> result SimpleGit)
    (rootDir : string) (out : list FileDiff) :
  getFileChangesInDirectory simpleGit rootDir = Ok out ->
  exists git summaryFiles,
    simpleGit rootDir = Ok git /\
    diffSummary git = Ok {| files := summaryFiles |} /\
    map fd_file out = map file_of (filter kept summaryFiles).
Proof.
  unfold getFileChangesInDirectory.
  destruct (simpleGit rootDir) as [git|e]; cbn [bind]; [|discriminate].
  destruct (diffSummary git) as [[summaryFiles]|e] eqn:Hsum; cbn [bind files];
    [|discriminate].
  intros H. exists git, summaryFiles.
  split; [reflexivity|]. split; [exact Hsum|].
  now rewrite (collectDiffs_paths _ _ _ _ H).
Qed.

Lemma getFileChangesInDirectory_snapshot (summaryFiles : list DiffResultFile)
    (diffText : string -> string) (rootDir : string) :
  getFileChangesInDirectory (snapshot summaryFiles diffText) rootDir =
  Ok (map (fun f => {| fd_file := file_of f; fd_diff := diffText (file_of f) |})
          (filter kept summaryFiles)).
Proof.
  unfold getFileChangesInDirectory, snapshot; cbn [bind snapshotGit diffSummary files].
  now rewrite (collectDiffs_ok _ diffText).
Qed.

(** C4 as the specification words it fails: the returned records carry no
    insertion or deletion count.  Two repositories that differ only in the
    counts give the same answer, so no reading of the returned records
    recovers them. *)
Lemma getFileChangesInDirectory_drops_counts :
  getFileChangesInDirectory (snapshot [DiffResultTextFile "a.ts" 10 10 0] patchOf) "."
    = getFileChangesInDirectory (snapshot [DiffResultTextFile "a.ts" 5 3 2] patchOf) "."
  /\
  ~ (exists insertionsOf : FileDiff -> N,
       forall summaryFiles,
       exists out,
         getFileChangesInDirectory (snapshot summaryFiles patchOf) "." = Ok out /\
         map insertionsOf out = map insertions_of (filter kept summaryFiles)).
Proof.
  split; [reflexivity|].
  intros [insertionsOf H].
  destruct (H [DiffResultTextFile "a.ts" 10 10 0]) as (o1 & E1 & M1).
  destruct (H [DiffResultTextFile "a.ts" 5 3 2]) as (o2 & E2 & M2).
  rewrite getFileChangesInDirectory_snapshot in E1, E2.
  injection E1 as <-. injection E2 as <-. cbn in M1, M2. congruence.
Qed.

(** C4 (amended).  When the repository opens and its queries succeed,
    [getFileChangesInDirectory] returns one record per listed file whose
    path is not in the exclusion set, in the order of the listing; a record
    carries the file path and its diff text, and nothing else. *)
Theorem getFileChangesInDirectory_returns
    (simpleGit : string -> result SimpleGit) (rootDir : string)
    (git : SimpleGit) (summaryFiles : list DiffResultFile)
    (diffText : string -> string) :
  simpleGit rootDir = Ok git ->
  diffSummary git = Ok {| files := summaryFiles |} ->
  (forall f, In f summaryFiles -> kept f = true ->
             diff git ["--"; file_of f] = Ok (diffText (file_of f))) ->
  getFileChangesInDirectory simpleGit rootDir =
  Ok (map (fun f => {| fd_file := file_of f; fd_diff := diffText (file_of f) |})
          (filter kept summaryFiles)).
Proof.
  intros Hgit Hsum Hdiff. unfold getFileChangesInDirectory.
  rewrite Hgit; cbn [bind]. rewrite Hsum; cbn [bind files].
  now rewrite (collectDiffs_ok _ diffText).
Qed.

Lemma getFileChangesInDirectory_returns_witness :
  getFileChangesInDirectory
    (snapshot [DiffResultTextFile "src/b.ts" 3 2 1;
               DiffResultTextFile "bun.lock" 7 5 2;
               DiffResultBinaryFile "a.png" 0 9] patchOf) "."
  = Ok [{| fd_file := "src/b.ts"; fd_diff := "diff --git a/src/b.ts" |};
        {| fd_file := "a.png"; fd_diff := "diff --git a/a.png" |}].
Proof.
  apply (getFileChangesInDirectory_returns
           (snapshot [DiffResultTextFile "src/b.ts" 3 2 1;
                      DiffResultTextFile "bun.lock" 7 5 2;
                      DiffResultBinaryFile "a.png" 0 9] patchOf)
           "."
           (snapshotGit [DiffResultTextFile "src/b.ts" 3 2 1;
                         DiffResultTextFile "bun.lock" 7 5 2;
                         DiffResultBinaryFile "a.png" 0 9] patchOf)
           _ patchOf eq_refl eq_refl).
  intros f _ _. reflexivity.
Defined.

Lemma changedFiles_paths (summaryFiles : list DiffResultFile) :
  map cf_file (changedFiles summaryFiles) = map file_of (filter kept summaryFiles).
Proof.
  unfold changedFiles. rewrite map_map. reflexivity.
Qed.

(** C8.  Both tools exclude a file exactly when its reported path is the
    string "dist" or the string "bun.lock".  A path inside an excluded
    directory, such as "dist/index.js", is not excluded: it gets a diff
    record and it takes part in the commit message. *)
Theorem exclusion_is_whole_path_equality :
  (forall path, JS.includes excludeFiles path = true
                <-> path = "dist" \/ path = "bun.lock") /\
  (forall f, kept f = true <-> file_of f <> "dist" /\ file_of f <> "bun.lock") /\
  (forall simpleGit rootDir out,
     getFileChangesInDirectory simpleGit rootDir = Ok out ->
     exists git summaryFiles,
       simpleGit rootDir = Ok git /\
       diffSummary git = Ok {| files := summaryFiles |} /\
       map fd_file out = map file_of (filter kept summaryFiles)) /\
  (forall summaryFiles,
     map cf_file (changedFiles summaryFiles) = map file_of (filter kept summaryFiles)) /\
  JS.includes excludeFiles "dist/index.js" = false /\
  getFileChangesInDirectory
    (snapshot [DiffResultTextFile "dist" 1 1 0;
               DiffResultTextFile "dist/index.js" 4 4 0;
               DiffResultTextFile "bun.lock" 7 5 2] patchOf) "."
    = Ok [{| fd_file := "dist/index.js"; fd_diff := "diff --git a/dist/index.js" |}] /\
  generateCommitMessage
    (snapshot [DiffResultTextFile "dist" 1 1 0;
               DiffResultTextFile "dist/index.js" 4 4 0;
               DiffResultTextFile "bun.lock" 7 5 2] patchOf) "." None
    = Ok "Add 1 new file: dist/index.js (+4 -0)".
Proof.
  split; [exact includes_excludeFiles|]. split; [|split; [|split]].
  - intros f. unfold kept. rewrite negb_true_iff.
    pose proof (includes_excludeFiles (file_of f)) as H.
    destruct (JS.includes excludeFiles (file_of f)).
    + split; [discriminate|]. intros [H1 H2].
      destruct (proj1 H eq_refl); contradiction.
    + split; [|reflexivity]. intros _.
      split; intros E; [assert (false = true) by (apply H; now left)
                       | assert (false = true) by (apply H; now right)];
        discriminate.
  - exact getFileChangesInDirectory_paths.
  - exact changedFiles_paths.
  - repeat split.
Qed.

Lemma exclusion_is_whole_path_equality_witness :
  exists git summaryFiles,
    snapshot [DiffResultTextFile "dist/index.js" 4 4 0;
              DiffResultTextFile "dist" 1 1 0] patchOf "." = Ok git /\
    diffSummary git = Ok {| files := summaryFiles |} /\
    ["dist/index.js"] = map file_of (filter kept summaryFiles).
Proof.
  apply (proj1 (proj2 (proj2 exclusion_is_whole_path_equality))
           (snapshot [DiffResultTextFile "dist/index.js" 4 4 0;
                      DiffResultTextFile "dist" 1 1 0] patchOf)
           "."
           [{| fd_file := "dist/index.js";
               fd_diff := "diff --git a/dist/index.js" |}]).
  reflexivity.
Defined.

(* ================================================================== *)
(** * writeMarkdownFile *)
(* ================================================================== *)

Lemma markdownFilename_endsWith (filename : string) :
  JS.endsWith (markdownFilename filename) ".md" = true.
Proof.
  unfold markdownFilename.
  destruct (JS.endsWith filename ".md") eqn:E; [exact E | apply endsWith_append].
Qed.

Lemma markdownFilename_idempotent (filename : string) :
  markdownFilename (markdownFilename filename) = markdownFilename filename.
Proof.
  unfold markdownFilename at 1. now rewrite markdownFilename_endsWith.
Qed.

(** C7 as the specification words it fails on the literal path: the
    runtime's [path.join] normalises its result, so the join of "." and
    "notes.md" is the string "notes.md", not "./notes.md" (both name the
    same file). *)
Lemma notes_path_is_normalised :
  Path.join "." "notes.md" = "notes.md" /\
  resolvedPath posixHost "notes" None = "notes.md" /\
  resolvedPath posixHost "notes" None <> "./notes.md" /\
  fst (writeMarkdownFile posixHost "LGTM" "notes" None MemoryHost.empty)
    = Ok {| success := true;
            filePath := "notes.md";
            message := "Markdown file written successfully to notes.md" |}.
Proof.
  split; [reflexivity|]. split; [reflexivity|]. split; [discriminate | reflexivity].
Qed.

(** C7 (amended).  The file name is normalised to end with ".md": the
    extension is appended exactly when the name does not end with it, so
    normalising twice changes nothing.  "notes" with the default directory
    resolves to the join of "." and "notes.md", which the runtime's
    [path.join] returns in normalised form as "notes.md"; and "notes.md"
    stays "notes.md", never "notes.md.md". *)
Theorem markdownFilename_normalizes :
  (forall filename, JS.endsWith filename ".md" = false ->
                    markdownFilename filename = filename ++ ".md") /\
  (forall filename, JS.endsWith filename ".md" = true ->
                    markdownFilename filename = filename) /\
  (forall filename, JS.endsWith (markdownFilename filename) ".md" = true) /\
  (forall filename,
     markdownFilename (markdownFilename filename) = markdownFilename filename) /\
  (forall (World : Type) (host : NodeHost World),
     resolvedPath host "notes" None = join host "." "notes.md") /\
  (forall (World : Type) (host : NodeHost World),
     resolvedPath (withJoin host Path.join) "notes" None = "notes.md") /\
  markdownFilename "notes.md" = "notes.md" /\
  markdownFilename "notes.md" <> "notes.md.md".
Proof.
  split; [|split; [|split; [|split; [|split; [|split]]]]].
  - intros filename E. unfold markdownFilename. now rewrite E.
  - intros filename E. unfold markdownFilename. now rewrite E.
  - exact markdownFilename_endsWith.
  - exact markdownFilename_idempotent.
  - reflexivity.
  - reflexivity.
  - split; [reflexivity | discriminate].
Qed.

Lemma markdownFilename_normalizes_witness :
  markdownFilename "notes" = "notes.md" /\
  markdownFilename "report.md" = "report.md".
Proof.
  split.
  - apply (proj1 markdownFilename_normalizes "notes"). reflexivity.
  - apply (proj1 (proj2 markdownFilename_normalizes) "report.md"). reflexivity.
Defined.

(** C10.  Whenever [writeMarkdownFile] returns a value rather than
    throwing, the value has [success = true], its [filePath] is the join of
    the directory argument (default ".") and the normalised file name, and
    its [message] is "Markdown file written successfully to " followed by
    that path.  No returned value has [success = false]. *)
Theorem writeMarkdownFile_value (World : Type) (host : NodeHost World)
    (content filename : string) (directory : option string)
    (w w' : World) (r : WriteResult) :
  writeMarkdownFile host content filename directory w = (Ok r, w') ->
  success r = true /\
  filePath r = join host (withDefault "." directory) (markdownFilename filename) /\
  message r = "Markdown file written successfully to " ++ filePath r /\
  success r <> false.
Proof.
  unfold writeMarkdownFile; cbv zeta.
  destruct (if negb (existsSync host (withDefault "." directory) w)
            then mkdirSync host (withDefault "." directory) w
            else (Ok tt, w)) as [[u|e] w1]; [|discriminate].
  destruct (writeFileSync host _ _ w1) as [[u'|e] w2]; [|discriminate].
  intros H. injection H as <- _. cbn. repeat split. discriminate.
Qed.

Lemma writeMarkdownFile_value_witness :
  let r := {| success := true;
              filePath := "./notes.md";
              message := "Markdown file written successfully to ./notes.md" |} in
  fst (writeMarkdownFile MemoryHost.host "LGTM" "notes" None MemoryHost.empty)
    = Ok r /\
  success r = true /\
  filePath r = "./" ++ markdownFilename "notes" /\
  message r = "Markdown file written successfully to " ++ filePath r /\
  success r <> false.
Proof.
  split; [reflexivity|].
  apply (writeMarkdownFile_value MemoryHost.World MemoryHost.host
           "LGTM" "notes" None MemoryHost.empty
           (snd (writeMarkdownFile MemoryHost.host "LGTM" "notes" None
                   MemoryHost.empty))).
  reflexivity.
Defined.

(** The function does return when the two [fs] calls it makes return: the
    directory is created only when missing, then the file is written with
    the header in front of the content. *)
Lemma writeMarkdownFile_returns (World : Type) (host : NodeHost World)
    (content filename : string) (directory : option string) (w w1 w2 : World) :
  (if negb (existsSync host (withDefault "." directory) w)
   then mkdirSync host (withDefault "." directory) w
   else (Ok tt, w)) = (Ok tt, w1) ->
  writeFileSync host (resolvedPath host filename directory)
                (header (toISOString host w1) ++ content) w1 = (Ok tt, w2) ->
  writeMarkdownFile host content filename directory w =
  (Ok {| success := true;
         filePath := resolvedPath host filename directory;
         message := "Markdown file written successfully to "
                      ++ resolvedPath host filename directory |}, w2).
Proof.
  intros Hmk Hwr. unfold writeMarkdownFile; cbv zeta.
  rewrite Hmk, Hwr. reflexivity.
Qed.

(** A throwing [mkdirSync] or [writeFileSync] is passed on, with the world
    the call left behind (a created directory is not removed). *)
Lemma writeMarkdownFile_write_throws (World : Type) (host : NodeHost World)
    (content filename : string) (directory : option string)
    (w w1 w2 : World) (e : exn) :
  (if negb (existsSync host (withDefault "." directory) w)
   then mkdirSync host (withDefault "." directory) w
   else (Ok tt, w)) = (Ok tt, w1) ->
  writeFileSync host (resolvedPath host filename directory)
                (header (toISOString host w1) ++ content) w1 = (Throw e, w2) ->
  writeMarkdownFile host content filename directory w = (Throw e, w2).
Proof.
  intros Hmk Hwr. unfold writeMarkdownFile; cbv zeta.
  rewrite Hmk, Hwr. reflexivity.
Qed.

(* ================================================================== *)
(** * Beyond the claims: buckets and totals *)
(* ================================================================== *)

(** Every record passes exactly one of the four tests. *)
Lemma one_test_per_record (f : ChangedFile) :
  (isNew f = true /\ isDeleted f = false /\ isModified f = false /\ isUntouched f = false) \/
  (isNew f = false /\ isDeleted f = true /\ isModified f = false /\ isUntouched f = false) \/
  (isNew f = false /\ isDeleted f = false /\ isModified f = true /\ isUntouched f = false) \/
  (isNew f = false /\ isDeleted f = false /\ isModified f = false /\ isUntouched f = true).
Proof.
  unfold isNew, isDeleted, isModified, isUntouched.
  destruct (cf_insertions f), (cf_deletions f); cbn; tauto.
Qed.

(** X1.  The three buckets and the records no bucket takes split the
    changed files: no record is in two buckets, and the four sizes add up
    to the number of changed files. *)
Theorem buckets_partition (cfs : list ChangedFile) :
  (forall f, In f (newFiles cfs) -> ~ In f (deletedFiles cfs) /\ ~ In f (modifiedFiles cfs)) /\
  (forall f, In f (deletedFiles cfs) -> ~ In f (modifiedFiles cfs)) /\
  List.length (newFiles cfs) + List.length (deletedFiles cfs)
    + List.length (modifiedFiles cfs) + List.length (filter isUntouched cfs)
  = List.length cfs.
Proof.
  unfold newFiles, deletedFiles, modifiedFiles. split; [|split].
  - intros f H. apply filter_In in H as [_ H]. rewrite !filter_In.
    destruct (one_test_per_record f) as [T|[T|[T|T]]]; split; intros [_ H'];
      destruct T as (T1 & T2 & T3 & T4); congruence.
  - intros f H. apply filter_In in H as [_ H]. rewrite !filter_In.
    destruct (one_test_per_record f) as [T|[T|[T|T]]]; intros [_ H'];
      destruct T as (T1 & T2 & T3 & T4); congruence.
  - induction cfs as [|f cfs IH]; [reflexivity|]. cbn [filter].
    destruct (one_test_per_record f) as [T|[T|[T|T]]];
      destruct T as (-> & -> & -> & ->); cbn [List.length]; lia.
Qed.

Lemma buckets_partition_witness :
  ~ In (added "x.ts" 5) (deletedFiles [added "x.ts" 5; removed "y.ts" 4]) /\
  ~ In (added "x.ts" 5) (modifiedFiles [added "x.ts" 5; removed "y.ts" 4]).
Proof.
  apply (proj1 (buckets_partition [added "x.ts" 5; removed "y.ts" 4])).
  left. reflexivity.
Defined.

Lemma totalInsertions_filter_zero (p : ChangedFile -> bool) (cfs : list ChangedFile) :
  (forall f, p f = true -> cf_insertions f = 0%N) ->
  totalInsertions (filter p cfs) = 0%N.
Proof.
  intros Hp. induction cfs as [|f cfs IH]; [reflexivity|]. cbn [filter].
  destruct (p f) eqn:E; [|exact IH].
  rewrite totalInsertions_cons, IH, (Hp f E). reflexivity.
Qed.

Lemma totalDeletions_filter_zero (p : ChangedFile -> bool) (cfs : list ChangedFile) :
  (forall f, p f = true -> cf_deletions f = 0%N) ->
  totalDeletions (filter p cfs) = 0%N.
Proof.
  intros Hp. induction cfs as [|f cfs IH]; [reflexivity|]. cbn [filter].
  destruct (p f) eqn:E; [|exact IH].
  rewrite totalDeletions_cons, IH, (Hp f E). reflexivity.
Qed.

(** X2.  The totals run over every changed file, whichever bucket wins the
    headline: the insertions are those of the Added and Modified buckets
    together, the deletions those of the Deleted and Modified buckets. *)
Theorem totals_by_bucket (cfs : list ChangedFile) :
  totalInsertions cfs
    = (totalInsertions (newFiles cfs) + totalInsertions (modifiedFiles cfs))%N /\
  totalDeletions cfs
    = (totalDeletions (deletedFiles cfs) + totalDeletions (modifiedFiles cfs))%N.
Proof.
  unfold newFiles, deletedFiles, modifiedFiles.
  induction cfs as [|f cfs [IHi IHd]]; [split; reflexivity|]. cbn [filter].
  pose proof (one_test_per_record f) as T.
  unfold isNew, isDeleted, isModified, isUntouched in *.
  destruct (N.eqb_spec (cf_insertions f) 0) as [Ei|Ei],
           (N.eqb_spec (cf_deletions f) 0) as [Ed|Ed];
    destruct (N.ltb_spec 0 (cf_insertions f)) as [Li|Li];
    destruct (N.ltb_spec 0 (cf_deletions f)) as [Ld|Ld]; try lia; cbn [andb];
    rewrite ?totalInsertions_cons, ?totalDeletions_cons, ?IHi, ?IHd; split; lia.
Qed.

(** Both totals are zero exactly when no bucket takes any record. *)
Lemma totals_zero_iff (cfs : list ChangedFile) :
  (totalInsertions cfs = 0%N /\ totalDeletions cfs = 0%N)
  <-> Forall (fun f => isUntouched f = true) cfs.
Proof.
  induction cfs as [|f cfs IH].
  - split; [constructor | split; reflexivity].
  - rewrite totalInsertions_cons, totalDeletions_cons. split.
    + intros [Hi Hd]. constructor.
      * unfold isUntouched. apply andb_true_intro; split; apply N.eqb_eq; lia.
      * apply IH. split; lia.
    + intros H. inversion H as [|? ? Hf Hcfs]; subst.
      apply IH in Hcfs as [Hi Hd]. unfold isUntouched in Hf.
      apply andb_prop in Hf as [Hfi Hfd].
      apply N.eqb_eq in Hfi, Hfd. split; lia.
Qed.

Lemma filter_nil_iff {A : Type} (p : A -> bool) (xs : list A) :
  filter p xs = [] <-> Forall (fun x => p x = false) xs.
Proof.
  induction xs as [|x xs IH]; cbn [filter].
  - split; [constructor | reflexivity].
  - destruct (p x) eqn:E; split.
    + discriminate.
    + intros H. inversion H; congruence.
    + intros H. constructor; [exact E | now apply IH].
    + intros H. inversion H. now apply IH.
Qed.

(** No bucket has a member exactly when every record is untouched. *)
Lemma winner_none_iff (cfs : list ChangedFile) :
  winner cfs = None <-> Forall (fun f => isUntouched f = true) cfs.
Proof.
  pose proof (winner_cases cfs) as Hw. split.
  - intros E. rewrite E in Hw. destruct Hw as (H1 & H2 & H3).
    apply filter_nil_iff in H1, H2, H3.
    rewrite Forall_forall in *. intros f Hf.
    specialize (H1 f Hf); specialize (H2 f Hf); specialize (H3 f Hf).
    destruct (one_test_per_record f) as [T|[T|[T|T]]];
      destruct T as (T1 & T2 & T3 & T4); congruence.
  - intros Hall.
    assert (Hempty : forall p, (forall f, isUntouched f = true -> p f = false) ->
                               filter p cfs = []).
    { intros p Hp. apply filter_nil_iff. rewrite Forall_forall in *.
      intros f Hf. apply Hp, Hall, Hf. }
    assert (H1 : newFiles cfs = []).
    { apply Hempty. intros f Hf.
      destruct (one_test_per_record f) as [T|[T|[T|T]]];
        destruct T as (T1 & T2 & T3 & T4); congruence. }
    assert (H2 : deletedFiles cfs = []).
    { apply Hempty. intros f Hf.
      destruct (one_test_per_record f) as [T|[T|[T|T]]];
        destruct T as (T1 & T2 & T3 & T4); congruence. }
    assert (H3 : modifiedFiles cfs = []).
    { apply Hempty. intros f Hf.
      destruct (one_test_per_record f) as [T|[T|[T|T]]];
        destruct T as (T1 & T2 & T3 & T4); congruence. }
    unfold winner, precedence; cbn [find bucketOf]. now rewrite H1, H2, H3.
Qed.

(* ================================================================== *)
(** * Beyond the claims: the shape of the message *)
(* ================================================================== *)

Lemma headline_of_winner (cfs : list ChangedFile) (b : Bucket) :
  winner cfs = Some b ->
  headline cfs =
    phrase b (List.length (bucketOf cfs b))
      ++ (if (List.length (bucketOf cfs b) <=? 3)%nat
          then listing (bucketOf cfs b) else "").
Proof.
  intros Hw. pose proof (winner_cases cfs) as Hc. rewrite Hw in Hc.
  destruct b; cbn [bucketOf].
  - now apply headline_added.
  - now apply headline_deleted.
  - now apply headline_modified.
Qed.

(** The first character of a phrase is that of its verb. *)
Lemma phrase_head (b : Bucket) (n : nat) :
  exists rest,
    phrase b n = String (match b with
                         | Added => "A" | Deleted => "R" | Modified => "U"
                         end%char) rest.
Proof.
  unfold phrase. destruct b; cbn [append]; eexists; reflexivity.
Qed.

Lemma stats_test (cfs : list ChangedFile) :
  ((0 <? totalInsertions cfs)%N || (0 <? totalDeletions cfs)%N) = false
  <-> (totalInsertions cfs = 0%N /\ totalDeletions cfs = 0%N).
Proof.
  rewrite orb_false_iff, !N.ltb_ge. lia.
Qed.

Lemma append_cons_nonempty (a : string) (c : ascii) (r : string) :
  a ++ String c r <> "".
Proof.
  destruct a; discriminate.
Qed.

(** The assembled message is empty exactly when every record is untouched. *)
Lemma assembled_empty_iff (cfs : list ChangedFile) :
  assembled cfs = "" <-> Forall (fun f => isUntouched f = true) cfs.
Proof.
  unfold assembled; cbv zeta.
  destruct ((0 <? totalInsertions cfs)%N || (0 <? totalDeletions cfs)%N) eqn:E.
  - split.
    + intros H. now apply append_cons_nonempty in H.
    + intros H. apply totals_zero_iff, stats_test in H. congruence.
  - apply stats_test, totals_zero_iff in E. split; [intros _; exact E|].
    intros _. apply winner_none_iff in E.
    pose proof (winner_cases cfs) as Hc. rewrite E in Hc.
    destruct Hc as (H1 & H2 & H3). now apply headline_none.
Qed.

(** X3.  A headline and the summary of changes come together or not at
    all: when some bucket has a member the message is its headline followed
    by " (+I -D)", and when none has the message is empty.  There is never
    a headline without the totals, nor totals without a headline. *)
Theorem headline_and_stats_together (cfs : list ChangedFile) :
  (winner cfs = None /\ headline cfs = "" /\ assembled cfs = "") \/
  (exists b c rest,
     winner cfs = Some b /\
     headline cfs = String c rest /\
     assembled cfs = headline cfs ++ stats cfs).
Proof.
  destruct (winner cfs) as [b|] eqn:Hw.
  - right. destruct (phrase_head b (List.length (bucketOf cfs b))) as [rest Hp].
    eexists b, _, _. split; [reflexivity|]. split.
    + rewrite (headline_of_winner _ _ Hw), Hp. cbn [append]. reflexivity.
    + unfold assembled, stats; cbv zeta.
      destruct ((0 <? totalInsertions cfs)%N || (0 <? totalDeletions cfs)%N) eqn:E;
        [reflexivity|].
      apply stats_test, totals_zero_iff, winner_none_iff in E. congruence.
  - left. split; [reflexivity|].
    pose proof (winner_cases cfs) as Hc. rewrite Hw in Hc.
    destruct Hc as (H1 & H2 & H3).
    pose proof (headline_none _ H1 H2 H3) as Hh. split; [exact Hh|].
    unfold assembled; cbv zeta.
    apply winner_none_iff, totals_zero_iff, stats_test in Hw. now rewrite Hw, Hh.
Qed.


Lemma assembled_head (cfs : list ChangedFile) :
  assembled cfs = "" \/
  exists c rest, assembled cfs = String c rest /\ (c = "A" \/ c = "R" \/ c = "U")%char.
Proof.
  destruct (winner cfs) as [b|] eqn:Hw.
  - right. destruct (phrase_head b (List.length (bucketOf cfs b))) as [rest Hp].
    pose proof (headline_of_winner _ _ Hw) as Hh. rewrite Hp in Hh.
    cbn [append] in Hh. unfold assembled; cbv zeta. rewrite Hh.
    destruct (_ || _); cbn [append]; eexists _, _; (split; [reflexivity|]);
      destruct b; tauto.
  - left. now apply assembled_empty_iff, winner_none_iff.
Qed.

(** What [truncate] returns starts like the message, or with a dot. *)
Lemma truncate_head (msg : string) (maxLength : Z) :
  truncate msg maxLength = msg \/
  (exists rest, truncate msg maxLength = String "." rest) \/
  (exists c r rest, msg = String c r /\ truncate msg maxLength = String c rest).
Proof.
  destruct (Z.ltb_spec maxLength (Z.of_nat (String.length msg))) as [Hlt|Hge].
  - right. rewrite (truncate_long _ _ Hlt), JS_substring_from_0.
    destruct (Z.to_nat _) as [|k].
    + left. destruct msg; cbn; eexists; reflexivity.
    + destruct msg as [|c r]; cbn; [left | right]; repeat eexists.
  - left. now apply truncate_short.
Qed.

Lemma truncate_empty_iff (msg : string) (maxLength : Z) :
  (0 <= maxLength)%Z -> (truncate msg maxLength = "" <-> msg = "").
Proof.
  intros H0. split.
  - destruct (Z.ltb_spec maxLength (Z.of_nat (String.length msg))) as [Hlt|Hge].
    + rewrite (truncate_long _ _ Hlt). intros H.
      now apply append_cons_nonempty in H.
    + now rewrite (truncate_short _ _ Hge).
  - intros ->. apply truncate_short. cbn. lia.
Qed.

Lemma changedFiles_untouched_iff (summaryFiles : list DiffResultFile) :
  Forall (fun f => isUntouched f = true) (changedFiles summaryFiles)
  <-> Forall (fun f => kept f = true ->
                       insertions_of f = 0%N /\ deletions_of f = 0%N) summaryFiles.
Proof.
  unfold changedFiles. fold kept.
  induction summaryFiles as [|f fs IH]; cbn [filter map].
  - split; constructor.
  - change (negb (JS.includes excludeFiles (file_of f))) with (kept f).
    destruct (kept f) eqn:K; cbn [map]; split; intros H.
    + inversion H as [|? ? Hf Hfs]; subst. constructor; [|now apply IH].
      intros _. unfold isUntouched in Hf; cbn in Hf.
      apply andb_prop in Hf as [Hi Hd]. now apply N.eqb_eq in Hi, Hd.
    + inversion H as [|? ? Hf Hfs]; subst. constructor; [|now apply IH].
      destruct (Hf K) as [Hi Hd]. unfold isUntouched; cbn.
      now rewrite Hi, Hd.
    + constructor; [intros K'; congruence | now apply IH].
    + inversion H; subst. now apply IH.
Qed.

(** X4.  With a non-empty summary and a bound that is not negative, the
    commit message is the empty string exactly when every entry that is not
    excluded has no insertion and no deletion to show (a binary file, a
    zero-line change), which includes the case where every entry is excluded. *)
Theorem empty_message_iff
    (simpleGit : string -> result SimpleGit) (rootDir : string)
    (git : SimpleGit) (summaryFiles : list DiffResultFile) (maxLength : option Z) :
  simpleGit rootDir = Ok git ->
  diffSummary git = Ok {| files := summaryFiles |} ->
  summaryFiles <> [] ->
  (0 <= withDefault 72 maxLength)%Z ->
  (generateCommitMessage simpleGit rootDir maxLength = Ok ""
   <-> Forall (fun f => kept f = true ->
                        insertions_of f = 0%N /\ deletions_of f = 0%N) summaryFiles).
Proof.
  intros Hgit Hsum Hne H0.
  rewrite (generateCommitMessage_returns _ _ _ _ Hgit Hsum).
  destruct summaryFiles as [|f fs] eqn:E; [congruence|]. cbn [isEmpty].
  rewrite <- changedFiles_untouched_iff, <- assembled_empty_iff.
  rewrite <- (truncate_empty_iff _ _ H0). split; [intros [= H] | intros H]; congruence.
Qed.

Lemma empty_message_iff_witness :
  generateCommitMessage
    (snapshot [DiffResultTextFile "dist" 9 5 4;
               DiffResultBinaryFile "logo.png" 0 120;
               DiffResultTextFile "run.sh" 0 0 0] patchOf) "." None
  = Ok "".
Proof.
  apply (empty_message_iff
           (snapshot [DiffResultTextFile "dist" 9 5 4;
                      DiffResultBinaryFile "logo.png" 0 120;
                      DiffResultTextFile "run.sh" 0 0 0] patchOf)
           "."
           (snapshotGit [DiffResultTextFile "dist" 9 5 4;
                         DiffResultBinaryFile "logo.png" 0 120;
                         DiffResultTextFile "run.sh" 0 0 0] patchOf)
           _ None eq_refl eq_refl).
  - discriminate.
  - cbn. lia.
  - repeat constructor; cbn; discriminate.
Defined.

(** X5.  The sentinel "No changes detected" is returned for an empty
    summary and for no other: every other message is empty or starts with
    "A", "R", "U" or a dot, whatever the bound cuts off. *)
Theorem sentinel_iff_no_files
    (simpleGit : string -> result SimpleGit) (rootDir : string)
    (git : SimpleGit) (summaryFiles : list DiffResultFile) (maxLength : option Z) :
  simpleGit rootDir = Ok git ->
  diffSummary git = Ok {| files := summaryFiles |} ->
  (generateCommitMessage simpleGit rootDir maxLength = Ok "No changes detected"
   <-> summaryFiles = []).
Proof.
  intros Hgit Hsum.
  rewrite (generateCommitMessage_returns _ _ _ _ Hgit Hsum).
  destruct summaryFiles as [|f fs] eqn:E; cbn [isEmpty].
  - split; reflexivity.
  - split; [|discriminate]. intros [= H]. exfalso.
    set (msg := assembled (changedFiles (f :: fs))) in *.
    destruct (truncate_head msg (withDefault 72%Z maxLength))
      as [T|[[rest T]|(c & r & rest & Hm & T)]];
      rewrite T in H; try discriminate.
    + destruct (assembled_head (changedFiles (f :: fs))) as [A|(c & rest & A & Hc)];
        fold msg in A; rewrite A in H; [discriminate|].
      injection H as Hc' _. destruct Hc as [-> | [-> | ->]]; discriminate.
    + destruct (assembled_head (changedFiles (f :: fs))) as [A|(c' & rest' & A & Hc)];
        fold msg in A; rewrite A in Hm; [discriminate|].
      injection Hm as -> _. injection H as Hc' _.
      destruct Hc as [-> | [-> | ->]]; discriminate.
Qed.

Lemma sentinel_iff_no_files_witness :
  generateCommitMessage (snapshot [] patchOf) "." (Some 5%Z)
  = Ok "No changes detected".
Proof.
  apply (sentinel_iff_no_files (snapshot [] patchOf) "."
           (snapshotGit [] patchOf) [] (Some 5%Z) eq_refl eq_refl).
  reflexivity.
Defined.

(* ================================================================== *)
(** * Beyond the claims: the cut, for every bound *)
(* ================================================================== *)

(** X6.  For a non-empty summary and any integer bound, the message that
    fits is returned unchanged; the message that does not is cut to
    [max (maxLength - 3) 0] characters plus "...".  So the result never has
    more than [max maxLength 3] characters, and a cut always shows. *)
Theorem generateCommitMessage_cut_contract
    (simpleGit : string -> result SimpleGit) (rootDir : string)
    (git : SimpleGit) (summaryFiles : list DiffResultFile) (maxLength : option Z) :
  simpleGit rootDir = Ok git ->
  diffSummary git = Ok {| files := summaryFiles |} ->
  summaryFiles <> [] ->
  exists out,
    generateCommitMessage simpleGit rootDir maxLength = Ok out /\
    (Z.of_nat (String.length out) <= Z.max (withDefault 72 maxLength) 3)%Z /\
    ((Z.of_nat (String.length (assembled (changedFiles summaryFiles)))
      <= withDefault 72 maxLength)%Z ->
     out = assembled (changedFiles summaryFiles)) /\
    ((withDefault 72 maxLength
      < Z.of_nat (String.length (assembled (changedFiles summaryFiles))))%Z ->
     JS.endsWith out "..." = true /\
     Z.of_nat (String.length out) = (Z.max (withDefault 72 maxLength - 3) 0 + 3)%Z).
Proof.
  intros Hgit Hsum Hne.
  rewrite (generateCommitMessage_returns _ _ _ _ Hgit Hsum).
  destruct summaryFiles as [|f fs] eqn:E; [congruence|]. cbn [isEmpty].
  set (msg := assembled (changedFiles (f :: fs))).
  set (m := withDefault 72%Z maxLength).
  eexists; split; [reflexivity|]. split; [|split].
  - destruct (Z.ltb_spec m (Z.of_nat (String.length msg))) as [Hlt|Hge].
    + rewrite (truncate_long_length _ _ Hlt). lia.
    + rewrite (truncate_short _ _ Hge). lia.
  - apply truncate_short.
  - intros Hlt. split; [now apply truncate_long_endsWith
                       | now apply truncate_long_length].
Qed.

Lemma generateCommitMessage_cut_contract_witness :
  exists out,
    generateCommitMessage (snapshot twoModified patchOf) "." (Some (-4)%Z) = Ok out /\
    (Z.of_nat (String.length out) <= Z.max (-4) 3)%Z /\
    ((Z.of_nat (String.length (assembled (changedFiles twoModified))) <= -4)%Z ->
     out = assembled (changedFiles twoModified)) /\
    ((-4 < Z.of_nat (String.length (assembled (changedFiles twoModified))))%Z ->
     JS.endsWith out "..." = true /\
     Z.of_nat (String.length out) = (Z.max (-4 - 3) 0 + 3)%Z).
Proof.
  apply (generateCommitMessage_cut_contract
           (snapshot twoModified patchOf) "."
           (snapshotGit twoModified patchOf) twoModified (Some (-4)%Z)
           eq_refl eq_refl).
  discriminate.
Defined.

(** X7.  Cutting is idempotent for every bound: a message that went through
    [truncate] passes through it again unchanged, also when the bound is
    below 3 and the first pass produced "...". *)
Theorem truncate_idempotent (msg : string) (maxLength : Z) :
  truncate (truncate msg maxLength) maxLength = truncate msg maxLength.
Proof.
  destruct (Z.ltb_spec maxLength (Z.of_nat (String.length msg))) as [Hlt|Hge].
  - destruct (Z.ltb_spec maxLength 3) as [H3|H3].
    + rewrite (truncate_below_3 _ _ H3 Hlt).
      apply truncate_below_3; [exact H3 | cbn; lia].
    + apply truncate_short. rewrite (truncate_long_length _ _ Hlt). lia.
  - now rewrite !(truncate_short _ _ Hge).
Qed.

(** X8.  [generateCommitMessage] rejects only when opening the repository
    or its [diffSummary] rejects, and then with the same error; it makes no
    [git.diff] query, so no diff failure can reach it. *)
Theorem generateCommitMessage_throws_iff
    (simpleGit : string -> result SimpleGit) (rootDir : string)
    (maxLength : option Z) (e : exn) :
  generateCommitMessage simpleGit rootDir maxLength = Throw e
  <-> (simpleGit rootDir = Throw e \/
       exists git, simpleGit rootDir = Ok git /\ diffSummary git = Throw e).
Proof.
  unfold generateCommitMessage; cbv zeta.
  destruct (simpleGit rootDir) as [git|e0]; cbn [bind].
  - destruct (diffSummary git) as [summary|e1] eqn:Hsum; cbn [bind].
    + split.
      * destruct (_ =? _)%nat; discriminate.
      * intros [H|(g & [= <-] & H)]; [discriminate | congruence].
    + split.
      * intros [= ->]. right. now exists git.
      * intros [H|(g & [= <-] & H)]; [discriminate | congruence].
  - split.
    + intros [= ->]. now left.
    + intros [[= ->]|(g & H & _)]; [reflexivity | discriminate].
Qed.

Lemma generateCommitMessage_throws_iff_witness :
  generateCommitMessage
    (fun _ => Ok {| diffSummary := Throw "fatal: not a git repository";
                    diff := fun _ => Throw "fatal: bad object" |})
    "/tmp" None
  = Throw "fatal: not a git repository".
Proof.
  apply (generateCommitMessage_throws_iff
           (fun _ => Ok {| diffSummary := Throw "fatal: not a git repository";
                           diff := fun _ => Throw "fatal: bad object" |})
           "/tmp" None "fatal: not a git repository").
  right. eexists. split; reflexivity.
Defined.

(* ================================================================== *)
(** * Beyond the claims: getFileChangesInDirectory, records and errors *)
(* ================================================================== *)

Lemma collectDiffs_records (git : SimpleGit) (P : FileDiff -> Prop)
    (todo : list DiffResultFile) (diffs out : list FileDiff) :
  (forall f d, kept f = true -> diff git ["--"; file_of f] = Ok d ->
               P {| fd_file := file_of f; fd_diff := d |}) ->
  Forall P diffs ->
  collectDiffs git todo diffs = Ok out -> Forall P out.
Proof.
  intros HP. revert diffs; induction todo as [|f todo IH]; intros diffs Hd;
    cbn [collectDiffs].
  - now intros [= <-].
  - destruct (JS.includes excludeFiles (file_of f)) eqn:Ex.
    + now apply IH.
    + destruct (diff git ["--"; file_of f]) as [d|e] eqn:Hdiff; cbn [bind];
        [|discriminate].
      apply IH. apply Forall_app. split; [exact Hd|].
      constructor; [|constructor]. apply HP; [|exact Hdiff].
      unfold kept. now rewrite Ex.
Qed.

(** X9.  Whenever [getFileChangesInDirectory] returns, every record of the
    result pairs a path that is neither "dist" nor "bun.lock" with the text
    [git.diff] answered for ["--", path], and there is one record per kept
    entry of the summary. *)
Theorem getFileChangesInDirectory_records
    (simpleGit : string -> result SimpleGit) (rootDir : string)
    (out : list FileDiff) :
  getFileChangesInDirectory simpleGit rootDir = Ok out ->
  exists git summaryFiles,
    simpleGit rootDir = Ok git /\
    diffSummary git = Ok {| files := summaryFiles |} /\
    List.length out = List.length (filter kept summaryFiles) /\
    Forall (fun d => diff git ["--"; fd_file d] = Ok (fd_diff d) /\
                     fd_file d <> "dist" /\ fd_file d <> "bun.lock") out.
Proof.
  unfold getFileChangesInDirectory.
  destruct (simpleGit rootDir) as [git|e]; cbn [bind]; [|discriminate].
  destruct (diffSummary git) as [[summaryFiles]|e] eqn:Hsum; cbn [bind files];
    [|discriminate].
  intros H. exists git, summaryFiles.
  split; [reflexivity|]. split; [exact Hsum|]. split.
  - pose proof (collectDiffs_paths _ _ _ _ H) as Hp.
    apply (f_equal (@List.length string)) in Hp.
    cbn [map app] in Hp. now rewrite !length_map in Hp.
  - apply (collectDiffs_records git _ summaryFiles [] out); [|constructor|exact H].
    intros f d Hk Hd. cbn. split; [exact Hd|].
    unfold kept in Hk. apply negb_true_iff in Hk.
    split; intros E;
      assert (JS.includes excludeFiles (file_of f) = true)
        by (apply includes_excludeFiles; auto); congruence.
Qed.

Lemma getFileChangesInDirectory_records_witness :
  exists git summaryFiles,
    snapshot [DiffResultTextFile "bun.lock" 7 5 2;
              DiffResultTextFile "src/a.ts" 3 2 1] patchOf "." = Ok git /\
    diffSummary git = Ok {| files := summaryFiles |} /\
    List.length [{| fd_file := "src/a.ts"; fd_diff := "diff --git a/src/a.ts" |}]
      = List.length (filter kept summaryFiles) /\
    Forall (fun d => diff git ["--"; fd_file d] = Ok (fd_diff d) /\
                     fd_file d <> "dist" /\ fd_file d <> "bun.lock")
           [{| fd_file := "src/a.ts"; fd_diff := "diff --git a/src/a.ts" |}].
Proof.
  apply (getFileChangesInDirectory_records
           (snapshot [DiffResultTextFile "bun.lock" 7 5 2;
                      DiffResultTextFile "src/a.ts" 3 2 1] patchOf) ".").
  reflexivity.
Defined.

Lemma collectDiffs_returns_iff (git : SimpleGit) (todo : list DiffResultFile)
    (diffs : list FileDiff) :
  (exists out, collectDiffs git todo diffs = Ok out)
  <-> Forall (diffAnswers git) todo.
Proof.
  revert diffs; induction todo as [|f todo IH]; intros diffs; cbn [collectDiffs].
  - split; [constructor | intros _; now eexists].
  - rewrite Forall_cons_iff. unfold diffAnswers at 1. unfold kept.
    destruct (JS.includes excludeFiles (file_of f)) eqn:Ex; cbn [negb].
    + rewrite IH. split.
      * intros H. split; [discriminate | exact H].
      * intros [_ H]. exact H.
    + destruct (diff git ["--"; file_of f]) as [d|e] eqn:Hd; cbn [bind].
      * rewrite IH. split.
        -- intros H. split; [intros _; now exists d | exact H].
        -- intros [_ H]. exact H.
      * split.
        -- intros [out H]. discriminate.
        -- intros [Hf _]. destruct (Hf eq_refl) as [d Hd']. discriminate.
Qed.

(** X10.  Once the repository opens and lists its changes,
    [getFileChangesInDirectory] returns exactly when the diff query of every
    kept entry answers.  The diff of an excluded entry is never asked for,
    so its failure cannot make the function reject. *)
Theorem getFileChangesInDirectory_returns_iff
    (simpleGit : string -> result SimpleGit) (rootDir : string)
    (git : SimpleGit) (summaryFiles : list DiffResultFile) :
  simpleGit rootDir = Ok git ->
  diffSummary git = Ok {| files := summaryFiles |} ->
  ((exists out, getFileChangesInDirectory simpleGit rootDir = Ok out)
   <-> Forall (diffAnswers git) summaryFiles).
Proof.
  intros Hgit Hsum. unfold getFileChangesInDirectory.
  rewrite Hgit; cbn [bind]. rewrite Hsum; cbn [bind files].
  apply collectDiffs_returns_iff.
Qed.

Lemma getFileChangesInDirectory_returns_iff_witness :
  exists out,
    getFileChangesInDirectory
      (fun _ => Ok (brokenDiffGit [DiffResultTextFile "dist" 9 5 4;
                                  DiffResultTextFile "src/a.ts" 3 2 1] "dist"))
      "." = Ok out.
Proof.
  apply (getFileChangesInDirectory_returns_iff
           (fun _ => Ok (brokenDiffGit [DiffResultTextFile "dist" 9 5 4;
                                       DiffResultTextFile "src/a.ts" 3 2 1] "dist"))
           "."
           (brokenDiffGit [DiffResultTextFile "dist" 9 5 4;
                           DiffResultTextFile "src/a.ts" 3 2 1] "dist")
           _ eq_refl eq_refl).
  constructor; [intros K; discriminate K|].
  constructor; [intros _; eexists; reflexivity | constructor].
Defined.

Lemma collectDiffs_first_failure (git : SimpleGit)
    (before after : list DiffResultFile) (f : DiffResultFile) (e : exn)
    (diffs : list FileDiff) :
  Forall (diffAnswers git) before ->
  kept f = true -> diff git ["--"; file_of f] = Throw e ->
  collectDiffs git (before ++ f :: after) diffs = Throw e.
Proof.
  revert diffs; induction before as [|g before IH]; intros diffs Hb Hk He;
    cbn [app collectDiffs].
  - unfold kept in Hk. apply negb_true_iff in Hk. now rewrite Hk, He.
  - inversion Hb as [|? ? Hg Hb']; subst.
    destruct (JS.includes excludeFiles (file_of g)) eqn:Ex.
    + now apply IH.
    + destruct Hg as [d Hd]; [unfold kept; now rewrite Ex|].
      rewrite Hd; cbn [bind]. now apply IH.
Qed.

Lemma collectDiffs_throw_inv (git : SimpleGit) (todo : list DiffResultFile)
    (diffs : list FileDiff) (e : exn) :
  collectDiffs git todo diffs = Throw e ->
  exists before f after,
    todo = (before ++ f :: after)%list /\
    Forall (diffAnswers git) before /\
    kept f = true /\ diff git ["--"; file_of f] = Throw e.
Proof.
  revert diffs; induction todo as [|g todo IH]; intros diffs;
    cbn [collectDiffs]; [discriminate|].
  destruct (JS.includes excludeFiles (file_of g)) eqn:Ex.
  - intros H. destruct (IH _ H) as (before & f & after & -> & Hb & Hk & He).
    exists (g :: before), f, after. repeat split; try assumption.
    constructor; [|exact Hb]. intros K. unfold kept in K.
    rewrite Ex in K. discriminate.
  - destruct (diff git ["--"; file_of g]) as [d|e'] eqn:Hd; cbn [bind].
    + intros H. destruct (IH _ H) as (before & f & after & -> & Hb & Hk & He).
      exists (g :: before), f, after. repeat split; try assumption.
      constructor; [|exact Hb]. intros _. now exists d.
    + intros [= ->]. exists [], g, todo. repeat split; try assumption.
      * constructor.
      * unfold kept. now rewrite Ex.
Qed.

(** X11.  [getFileChangesInDirectory] rejects in three ways only, and
    always with the error it was given: opening the repository rejects, or
    [diffSummary] rejects, or the diff query of a kept entry rejects after
    the queries of all kept entries before it answered.  No failing entry
    is skipped, and nothing collected so far is returned. *)
Theorem getFileChangesInDirectory_throws_iff
    (simpleGit : string -> result SimpleGit) (rootDir : string) (e : exn) :
  getFileChangesInDirectory simpleGit rootDir = Throw e
  <-> (simpleGit rootDir = Throw e \/
       exists git,
         simpleGit rootDir = Ok git /\
         (diffSummary git = Throw e \/
          exists before f after,
            diffSummary git = Ok {| files := (before ++ f :: after)%list |} /\
            Forall (diffAnswers git) before /\
            kept f = true /\ diff git ["--"; file_of f] = Throw e)).
Proof.
  unfold getFileChangesInDirectory.
  destruct (simpleGit rootDir) as [git|e0]; cbn [bind].
  - destruct (diffSummary git) as [[summaryFiles]|e1] eqn:Hsum; cbn [bind files].
    + split.
      * intros H. right. exists git. split; [reflexivity|]. right.
        destruct (collectDiffs_throw_inv _ _ _ _ H)
          as (before & f & after & -> & Hb & Hk & He).
        now exists before, f, after.
      * intros [H|(g & [= <-] & [H|(before & f & after & Hs & Hb & Hk & He)])];
          try discriminate; [congruence|].
        rewrite Hsum in Hs. injection Hs as ->.
        now apply collectDiffs_first_failure.
    + split.
      * intros [= ->]. right. exists git. split; [reflexivity | now left].
      * intros [H|(g & [= <-] & [H|(before & f & after & Hs & _)])];
          [discriminate | congruence | congruence].
  - split.
    + intros [= ->]. now left.
    + intros [[= ->]|(g & H & _)]; [reflexivity | discriminate].
Qed.

Lemma getFileChangesInDirectory_throws_iff_witness :
  getFileChangesInDirectory
    (fun _ => Ok (brokenDiffGit [DiffResultTextFile "src/a.ts" 3 2 1;
                                DiffResultBinaryFile "logo.png" 0 120;
                                DiffResultTextFile "src/b.ts" 1 1 0] "logo.png"))
    "." = Throw "fatal: bad object".
Proof.
  apply (getFileChangesInDirectory_throws_iff
           (fun _ => Ok (brokenDiffGit [DiffResultTextFile "src/a.ts" 3 2 1;
                                       DiffResultBinaryFile "logo.png" 0 120;
                                       DiffResultTextFile "src/b.ts" 1 1 0] "logo.png"))
           "." "fatal: bad object").
  right. eexists. split; [reflexivity|]. right.
  exists [DiffResultTextFile "src/a.ts" 3 2 1],
         (DiffResultBinaryFile "logo.png" 0 120),
         [DiffResultTextFile "src/b.ts" 1 1 0].
  split; [reflexivity|]. split; [|split; reflexivity].
  constructor; [intros _; eexists; reflexivity | constructor].
Defined.

(* ================================================================== *)
(** * Beyond the claims: the order of the changed files *)
(* ================================================================== *)

Lemma filter_length_perm {A : Type} (p : A -> bool) (xs ys : list A) :
  Permutation xs ys -> List.length (filter p xs) = List.length (filter p ys).
Proof.
  induction 1 as [|x xs ys _ IH|x y xs|xs ys zs _ IH1 _ IH2]; cbn [filter].
  - reflexivity.
  - destruct (p x); cbn [List.length]; now rewrite IH.
  - destruct (p x), (p y); reflexivity.
  - now rewrite IH1.
Qed.

Lemma totalInsertions_perm (cfs cfs' : list ChangedFile) :
  Permutation cfs cfs' -> totalInsertions cfs = totalInsertions cfs'.
Proof.
  induction 1 as [|x xs ys _ IH|x y xs|xs ys zs _ IH1 _ IH2].
  - reflexivity.
  - now rewrite !totalInsertions_cons, IH.
  - rewrite !totalInsertions_cons. lia.
  - now rewrite IH1.
Qed.

Lemma totalDeletions_perm (cfs cfs' : list ChangedFile) :
  Permutation cfs cfs' -> totalDeletions cfs = totalDeletions cfs'.
Proof.
  induction 1 as [|x xs ys _ IH|x y xs|xs ys zs _ IH1 _ IH2].
  - reflexivity.
  - now rewrite !totalDeletions_cons, IH.
  - rewrite !totalDeletions_cons. lia.
  - now rewrite IH1.
Qed.

Lemma isEmpty_length {A : Type} (xs : list A) :
  isEmpty xs = (List.length xs =? 0)%nat.
Proof.
  destruct xs; reflexivity.
Qed.

Lemma bucketOf_filter (cfs : list ChangedFile) (b : Bucket) :
  bucketOf cfs b = filter (inBucket b) cfs.
Proof.
  destruct b; reflexivity.
Qed.

(** X12.  Listing the same changed files in another order changes neither
    the winning bucket, nor the size of any bucket, nor the totals; when
    the winning bucket has 4 members or more (no listing), the whole
    assembled message is the same. *)
Theorem reordering_keeps_message (cfs cfs' : list ChangedFile) :
  Permutation cfs cfs' ->
  winner cfs = winner cfs' /\
  (forall b, List.length (bucketOf cfs b) = List.length (bucketOf cfs' b)) /\
  totalInsertions cfs = totalInsertions cfs' /\
  totalDeletions cfs = totalDeletions cfs' /\
  (forall b, winner cfs = Some b -> 4 <= List.length (bucketOf cfs b) ->
             assembled cfs = assembled cfs').
Proof.
  intros HP.
  assert (Hlen : forall b, List.length (bucketOf cfs b) = List.length (bucketOf cfs' b)).
  { intros b. rewrite !bucketOf_filter. now apply filter_length_perm. }
  assert (Hw : winner cfs = winner cfs').
  { unfold winner, precedence; cbn [find]. now rewrite !isEmpty_length, !Hlen. }
  pose proof (totalInsertions_perm _ _ HP) as Hi.
  pose proof (totalDeletions_perm _ _ HP) as Hd.
  repeat split; try assumption.
  intros b Hb H4.
  assert (Hh : forall l, winner l = Some b -> 4 <= List.length (bucketOf l b) ->
                         headline l = phrase b (List.length (bucketOf l b))).
  { intros l Hl Hn. rewrite (headline_of_winner _ _ Hl).
    destruct (Nat.leb_spec (List.length (bucketOf l b)) 3); [lia|].
    apply append_empty_r. }
  unfold assembled; cbv zeta.
  rewrite (Hh cfs Hb H4), (Hh cfs') by (rewrite <- ?Hw, <- ?Hlen; assumption).
  now rewrite Hi, Hd, Hlen.
Qed.

Lemma reordering_keeps_message_witness :
  assembled [removed "z.ts" 9; added "a.ts" 1; added "b.ts" 2;
             added "c.ts" 3; added "d.ts" 4]
  = assembled [added "a.ts" 1; removed "z.ts" 9; added "b.ts" 2;
               added "c.ts" 3; added "d.ts" 4].
Proof.
  apply (reordering_keeps_message
           [removed "z.ts" 9; added "a.ts" 1; added "b.ts" 2;
            added "c.ts" 3; added "d.ts" 4]
           [added "a.ts" 1; removed "z.ts" 9; added "b.ts" 2;
            added "c.ts" 3; added "d.ts" 4]) with (b := Added).
  - apply perm_swap.
  - reflexivity.
  - vm_compute. lia.
Defined.

(* ================================================================== *)
(** * Beyond the claims: the report file *)
(* ================================================================== *)

Lemma substring_split (s : string) (k : nat) :
  k <= String.length s ->
  s = String.substring 0 k s ++ String.substring k (String.length s - k) s.
Proof.
  revert k; induction s as [|c s IH]; intros [|k] Hk; cbn in *.
  - reflexivity.
  - lia.
  - now rewrite substring_0_all.
  - f_equal. apply IH. lia.
Qed.

(** A string that [endsWith] a suffix is some stem followed by it. *)
Lemma endsWith_inv (s suffix : string) :
  JS.endsWith s suffix = true -> exists stem, s = stem ++ suffix.
Proof.
  unfold JS.endsWith.
  destruct (Nat.leb_spec (String.length suffix) (String.length s)) as [Hle|];
    [|discriminate].
  intros H. apply String.eqb_eq in H.
  exists (String.substring 0 (String.length s - String.length suffix) s).
  rewrite (substring_split s (String.length s - String.length suffix)) at 1 by lia.
  replace (String.length s - (String.length s - String.length suffix))
    with (String.length suffix) by lia.
  now rewrite H.
Qed.

Lemma append_not_self (a : string) (c : ascii) (r : string) :
  a <> a ++ String c r.
Proof.
  intros H. apply (f_equal String.length) in H.
  rewrite length_append in H. cbn in H. lia.
Qed.

(** X13.  The written name always has the form stem ++ ".md" (so it is
    never empty) and keeps the requested name as its beginning.  Two
    requested names share one file: a name without the extension and the
    same name with it resolve to the same path. *)
Theorem markdownFilename_collision :
  (forall filename,
     exists stem rest,
       markdownFilename filename = stem ++ ".md" /\
       markdownFilename filename = filename ++ rest) /\
  (forall filename, markdownFilename (filename ++ ".md") = filename ++ ".md") /\
  (forall (World : Type) (host : NodeHost World) filename directory,
     JS.endsWith filename ".md" = false ->
     filename <> filename ++ ".md" /\
     resolvedPath host filename directory
       = resolvedPath host (filename ++ ".md") directory).
Proof.
  split; [|split].
  - intros filename. unfold markdownFilename.
    destruct (JS.endsWith filename ".md") eqn:E.
    + destruct (endsWith_inv _ _ E) as [stem Hs].
      exists stem, "". split; [exact Hs | now rewrite append_empty_r].
    + exists filename, ".md". split; reflexivity.
  - intros filename. unfold markdownFilename. now rewrite endsWith_append.
  - intros World host filename directory E. split; [apply append_not_self|].
    unfold resolvedPath, markdownFilename; cbv zeta.
    now rewrite E, endsWith_append.
Qed.

Lemma markdownFilename_collision_witness :
  "review" <> "review" ++ ".md" /\
  resolvedPath MemoryHost.host "review" (Some "reports")
    = resolvedPath MemoryHost.host ("review" ++ ".md") (Some "reports").
Proof.
  apply (proj2 (proj2 markdownFilename_collision)
           MemoryHost.World MemoryHost.host "review" (Some "reports")).
  reflexivity.
Defined.

(** X14.  A directory that exists is not created again: when [existsSync]
    answers true, [mkdirSync] plays no part in the outcome, whatever it
    would have done. *)
Theorem existing_directory_is_left_alone (World : Type) (host : NodeHost World)
    (mk : string -> World -> result unit * World)
    (content filename : string) (directory : option string) (w : World) :
  existsSync host (withDefault "." directory) w = true ->
  writeMarkdownFile (withMkdirSync host mk) content filename directory w
  = writeMarkdownFile host content filename directory w.
Proof.
  intros Hex. unfold writeMarkdownFile, resolvedPath, withMkdirSync; cbv zeta.
  cbn [existsSync mkdirSync writeFileSync toISOString join].
  now rewrite Hex.
Qed.

Lemma existing_directory_is_left_alone_witness :
  writeMarkdownFile
    (withMkdirSync MemoryHost.host (fun _ w => (Throw "EACCES: permission denied", w)))
    "LGTM" "notes" None MemoryHost.empty
  = writeMarkdownFile MemoryHost.host "LGTM" "notes" None MemoryHost.empty.
Proof.
  apply (existing_directory_is_left_alone MemoryHost.World MemoryHost.host).
  reflexivity.
Defined.

(** X15.  [writeMarkdownFile] throws in two ways only, with the error it
    was given: the directory is missing and [mkdirSync] throws (then
    nothing is written), or [writeFileSync] throws on the world that the
    directory step left (a directory created just before stays created). *)
Theorem writeMarkdownFile_throws_iff (World : Type) (host : NodeHost World)
    (content filename : string) (directory : option string)
    (w w' : World) (e : exn) :
  writeMarkdownFile host content filename directory w = (Throw e, w')
  <-> ((existsSync host (withDefault "." directory) w = false /\
        mkdirSync host (withDefault "." directory) w = (Throw e, w')) \/
       (exists w1,
          (existsSync host (withDefault "." directory) w = true /\ w1 = w \/
           existsSync host (withDefault "." directory) w = false /\
           mkdirSync host (withDefault "." directory) w = (Ok tt, w1)) /\
          writeFileSync host (resolvedPath host filename directory)
                        (header (toISOString host w1) ++ content) w1
          = (Throw e, w'))).
Proof.
  unfold writeMarkdownFile; cbv zeta.
  destruct (existsSync host (withDefault "." directory) w) eqn:Hex; cbn [negb].
  - destruct (writeFileSync host _ _ w) as [[u|e2] w2] eqn:Hwr; split.
    + discriminate.
    + intros [[H _]|(w1 & [[_ ->]|[H _]] & H2)]; try discriminate.
      rewrite Hwr in H2. discriminate.
    + intros [= -> ->]. right. exists w. split; [now left | exact Hwr].
    + intros [[H _]|(w1 & [[_ ->]|[H _]] & H2)]; try discriminate.
      rewrite Hwr in H2. now injection H2 as -> ->.
  - destruct (mkdirSync host (withDefault "." directory) w) as [[[]|e1] w1] eqn:Hmk.
    + destruct (writeFileSync host _ _ w1) as [[u|e2] w2] eqn:Hwr; split.
      * discriminate.
      * intros [[_ H]|(w1' & [[H _]|[_ H]] & H2)]; try discriminate.
        injection H as <-. rewrite Hwr in H2. discriminate.
      * intros [= -> ->]. right. exists w1. split; [now right | exact Hwr].
      * intros [[_ H]|(w1' & [[H _]|[_ H]] & H2)]; try discriminate.
        injection H as <-. rewrite Hwr in H2. now injection H2 as -> ->.
    + split.
      * intros [= -> ->]. now left.
      * intros [[_ H]|(w1' & [[H _]|[_ H]] & _)]; try discriminate.
        now injection H as -> ->.
Qed.

Lemma writeMarkdownFile_throws_iff_witness :
  writeMarkdownFile readOnlyHost "LGTM" "notes" (Some "reports") MemoryHost.empty
  = (Throw "EROFS: read-only file system",
     {| MemoryHost.dirs := ["reports"; "."];
        MemoryHost.store := [];
        MemoryHost.clock := "2025-01-01T00:00:00.000Z" |}).
Proof.
  apply (writeMarkdownFile_throws_iff MemoryHost.World readOnlyHost
           "LGTM" "notes" (Some "reports") MemoryHost.empty).
  right. eexists. split; [right; split; reflexivity | reflexivity].
Defined.

Lemma header_length (timestamp : string) :
  String.length (header timestamp) = 45 + String.length timestamp.
Proof.
  unfold header. rewrite !length_append. cbn. lia.
Qed.

(** X16.  Whenever [writeMarkdownFile] returns, the state it leaves is the
    one [writeFileSync] produced when it was given, at the returned
    [filePath], the header for the timestamp read after the directory step
    followed by the caller's content: the content is in the written data
    verbatim, starting 45 characters plus the timestamp's length in. *)
Theorem written_data_is_header_then_content (World : Type) (host : NodeHost World)
    (content filename : string) (directory : option string)
    (w w' : World) (r : WriteResult) :
  writeMarkdownFile host content filename directory w = (Ok r, w') ->
  exists w1 data,
    (existsSync host (withDefault "." directory) w = true /\ w1 = w \/
     existsSync host (withDefault "." directory) w = false /\
     mkdirSync host (withDefault "." directory) w = (Ok tt, w1)) /\
    writeFileSync host (filePath r) data w1 = (Ok tt, w') /\
    data = header (toISOString host w1) ++ content /\
    String.length data
      = 45 + String.length (toISOString host w1) + String.length content /\
    String.substring (45 + String.length (toISOString host w1))
                     (String.length content) data = content.
Proof.
  unfold writeMarkdownFile; cbv zeta.
  assert (Hdata : forall t,
            String.length (header t ++ content)
              = 45 + String.length t + String.length content /\
            String.substring (45 + String.length t) (String.length content)
                             (header t ++ content) = content).
  { intros t. split.
    - now rewrite length_append, header_length.
    - rewrite <- header_length. apply substring_skip_append. }
  destruct (existsSync host (withDefault "." directory) w) eqn:Hex; cbn [negb].
  - destruct (writeFileSync host _ _ w) as [[[]|e] w2] eqn:Hwr; [|discriminate].
    intros [= <- <-]. cbn [filePath]. exists w. eexists.
    split; [now left|]. split; [exact Hwr|]. split; [reflexivity | apply Hdata].
  - destruct (mkdirSync host (withDefault "." directory) w) as [[[]|e] w1] eqn:Hmk;
      [|discriminate].
    destruct (writeFileSync host _ _ w1) as [[[]|e] w2] eqn:Hwr; [|discriminate].
    intros [= <- <-]. cbn [filePath]. exists w1. eexists.
    split; [now right|]. split; [exact Hwr|]. split; [reflexivity | apply Hdata].
Qed.

Lemma written_data_is_header_then_content_witness :
  exists w1 data,
    (existsSync MemoryHost.host "reports" MemoryHost.empty = true /\
     w1 = MemoryHost.empty \/
     existsSync MemoryHost.host "reports" MemoryHost.empty = false /\
     mkdirSync MemoryHost.host "reports" MemoryHost.empty = (Ok tt, w1)) /\
    writeFileSync MemoryHost.host "reports/notes.md" data w1
      = (Ok tt,
         {| MemoryHost.dirs := ["reports"; "."];
            MemoryHost.store :=
              [("reports/notes.md", header "2025-01-01T00:00:00.000Z" ++ "LGTM")];
            MemoryHost.clock := "2025-01-01T00:00:00.000Z" |}) /\
    data = header (toISOString MemoryHost.host w1) ++ "LGTM" /\
    String.length data
      = 45 + String.length (toISOString MemoryHost.host w1) + String.length "LGTM" /\
    String.substring (45 + String.length (toISOString MemoryHost.host w1))
                     (String.length "LGTM") data = "LGTM".
Proof.
  apply (written_data_is_header_then_content MemoryHost.World MemoryHost.host
           "LGTM" "notes" (Some "reports") MemoryHost.empty
           {| MemoryHost.dirs := ["reports"; "."];
              MemoryHost.store :=
                [("reports/notes.md", header "2025-01-01T00:00:00.000Z" ++ "LGTM")];
              MemoryHost.clock := "2025-01-01T00:00:00.000Z" |}
           {| success := true;
              filePath := "reports/notes.md";
              message := "Markdown file written successfully to reports/notes.md" |}).
  reflexivity.
Defined.

(* ================================================================== *)
(** * Beyond the claims: the relay loop *)
(* ================================================================== *)

Lemma concat_empty_cons (x : string) (xs : list string) :
  String.concat "" (x :: xs) = x ++ String.concat "" xs.
Proof.
  destruct xs; cbn [String.concat append]; [now rewrite append_empty_r | reflexivity].
Qed.

Lemma writeChunks_concat (todo : list string) (stdout : string) :
  writeChunks todo stdout = stdout ++ String.concat "" todo.
Proof.
  revert stdout; induction todo as [|chunk rest IH]; intros stdout;
    cbn [writeChunks].
  - cbn. now rewrite append_empty_r.
  - now rewrite IH, concat_empty_cons, append_assoc.
Qed.

(** X17.  [codeReviewAgent] relays the stream and adds nothing: what was
    on standard output stays, followed by the chunks in the order they
    came, joined without separator.  This also holds when the stream
    rejects: the chunks yielded before the error are already written, and
    the agent rejects with the stream's error; otherwise it completes. *)
Theorem codeReviewAgent_relays (SYSTEM_PROMPT : string)
    (streamText : StreamRequest -> TextStream) (prompt stdout : string) :
  let stream := streamText (agentRequest SYSTEM_PROMPT prompt) in
  snd (codeReviewAgent SYSTEM_PROMPT streamText prompt stdout)
    = stdout ++ String.concat "" (chunks stream) /\
  (forall e, fst (codeReviewAgent SYSTEM_PROMPT streamText prompt stdout) = Throw e
             <-> failure stream = Some e) /\
  (fst (codeReviewAgent SYSTEM_PROMPT streamText prompt stdout) = Ok tt
   <-> failure stream = None).
Proof.
  cbv zeta. unfold codeReviewAgent; cbv zeta.
  destruct (failure (streamText (agentRequest SYSTEM_PROMPT prompt))) as [e0|];
    cbn [fst snd]; rewrite writeChunks_concat.
  - split; [reflexivity|]. split.
    + intros e. split; intros [= ->]; reflexivity.
    + split; discriminate.
  - split; [reflexivity|]. split.
    + intros e. split; discriminate.
    + split; reflexivity.
Qed.

Lemma codeReviewAgent_relays_witness :
  fst (codeReviewAgent "You are an expert code reviewer"
         (fun _ => {| chunks := ["Looks "; "good"]; failure := Some "quota exceeded" |})
         "Review the code changes" "> ")
  = Throw "quota exceeded" /\
  snd (codeReviewAgent "You are an expert code reviewer"
         (fun _ => {| chunks := ["Looks "; "good"]; failure := Some "quota exceeded" |})
         "Review the code changes" "> ")
  = "> Looks good".
Proof.
  split.
  - apply (proj1 (proj2 (codeReviewAgent_relays "You are an expert code reviewer"
             (fun _ => {| chunks := ["Looks "; "good"];
                          failure := Some "quota exceeded" |})
             "Review the code changes" "> "))).
    reflexivity.
  - apply (proj1 (codeReviewAgent_relays "You are an expert code reviewer"
             (fun _ => {| chunks := ["Looks "; "good"];
                          failure := Some "quota exceeded" |})
             "Review the code changes" "> ")).
Defined.
